(** * strava-db-syncer: the sync loop and the HTTP API over one collection

    A shallow embedding of [strava_db_sync_mongodb_atlas.py] (the sync
    process) and [strava_fast_api.py] (the CRUD API), together with the part
    of the document store both of them talk to.

    - Python values (JSON payloads, BSON documents) are a first-order
      inductive type [value]; a Python [dict] that is only read is an
      association list, a stored document is a [gmap string value].
    - The collection is an ordered list of documents (the store's natural
      order) with the flag of the unique index on ["id"].
    - Exceptions are an [outcome]; [exit()] is a separate outcome that
      [except Exception] does not catch.
    - Logging and HTTP requests are an output trace of events.
    - [datetime.strptime], [datetime.isoformat] and [polyline.decode] are
      library functions: the development is parametric in them (class
      [PyLibs]). *)

From Stdlib Require Import ZArith String List Bool Lia.
From Stdlib Require Import Floats.SpecFloat.
From stdpp Require Import base option list gmap strings fin_maps.

Open Scope string_scope.
Open Scope Z_scope.
Open Scope list_scope.

(* ===================================================================== *)
(** ** Python values *)
(* ===================================================================== *)

(** A naive or timezone-aware [datetime]; [utcoffset] is in seconds. *)
Record datetime := mk_datetime {
  year : Z; month : Z; day : Z;
  hour : Z; minute : Z; second : Z;
  utcoffset : option Z
}.

#[warnings="-register-all"]
Inductive value :=
| VNull
| VBool (b : bool)
| VInt (n : Z)
| VFloat (f : spec_float)
| VStr (s : string)
| VDate (d : datetime)
| VList (l : list value)
| VObj (kvs : list (string * value)).

(** A Python [dict] read from JSON. *)
Abbreviation pydict := (list (string * value)).

(** A stored document's fields. *)
Abbreviation fields := (gmap string value).

Lemma spec_float_eq_dec (x y : spec_float) : {x = y} + {x <> y}.
Proof. repeat decide equality. Defined.

Lemma datetime_eq_dec (x y : datetime) : {x = y} + {x <> y}.
Proof. repeat decide equality. Defined.

Fixpoint value_eq_dec (x y : value) {struct x} : {x = y} + {x <> y}.
Proof.
  decide equality.
  - apply bool_dec.
  - apply Z.eq_dec.
  - apply spec_float_eq_dec.
  - apply string_dec.
  - apply datetime_eq_dec.
  - apply (List.list_eq_dec value_eq_dec).
  - apply List.list_eq_dec. intros [k1 v1] [k2 v2].
    destruct (string_dec k1 k2) as [Hk | Hk].
    + destruct (value_eq_dec v1 v2) as [Hv | Hv].
      * left. congruence.
      * right. congruence.
    + right. congruence.
Defined.

#[export] Instance value_eqdec : EqDecision value := value_eq_dec.

(** Python truthiness, as used by [if polyline_data], [if not activities]
    and [if collection.find_one(...)]. *)
Definition truthy (v : value) : bool :=
  match v with
  | VNull => false
  | VBool b => b
  | VInt n => negb (n =? 0)
  | VFloat f => match f with S754_zero _ => false | _ => true end
  | VStr s => negb (String.eqb s "")
  | VDate _ => true
  | VList l => match l with [] => false | _ => true end
  | VObj kvs => match kvs with [] => false | _ => true end
  end.


(* ===================================================================== *)
(** ** Exceptions and outcomes *)
(* ===================================================================== *)

Inductive exn :=
| KeyError (k : string)
| AttributeError
| TypeError
| ValueError
| IndexError
| JSONDecodeError
| DuplicateKeyError.

(** Straight-line code that may raise: [exn + A], with stdpp's monad
    notation [x ← e; k]. *)
#[export] Instance exn_ret : MRet (sum exn) := λ A a, inr a.
#[export] Instance exn_bind : MBind (sum exn) :=
  λ A B f m, match m with inl e => inl e | inr a => f a end.

(** How a call ends: it returns, it raises an [Exception], or it calls
    [exit()] (a [SystemExit], which [except Exception] does not catch and
    which ends the process). *)
Inductive outcome (A : Type) :=
| Returns (a : A)
| Raises (e : exn)
| Exits.
Arguments Returns {A} a.
Arguments Raises {A} e.
Arguments Exits {A}.

(** [d[k]]: only a dict can be indexed by a string. *)
Fixpoint assoc (k : string) (kvs : pydict) : option value :=
  match kvs with
  | [] => None
  | (k', v) :: rest => if String.eqb k k' then Some v else assoc k rest
  end.

Definition getitem (v : value) (k : string) : exn + value :=
  match v with
  | VObj kvs =>
      match assoc k kvs with
      | Some x => inr x
      | None => inl (KeyError k)
      end
  | _ => inl TypeError
  end.

(** [d.get(k, default)]: only a dict has the method. *)
Definition py_get (v : value) (k : string) (dflt : value) : exn + value :=
  match v with
  | VObj kvs => inr (default dflt (assoc k kvs))
  | _ => inl AttributeError
  end.

(** [for x in v]: a list yields its items, a dict its keys, a string its
    characters; the other values are not iterable. *)
Fixpoint chars (s : string) : list value :=
  match s with
  | EmptyString => []
  | String a rest => VStr (String a EmptyString) :: chars rest
  end.

Definition py_iter (v : value) : exn + list value :=
  match v with
  | VList l => inr l
  | VObj kvs => inr (List.map (λ kv, VStr (fst kv)) kvs)
  | VStr s => inr (chars s)
  | _ => inl TypeError
  end.

(* ===================================================================== *)
(** ** The document store *)
(* ===================================================================== *)

(** A stored document: the store's own [_id] and the fields written by the
    clients.  No writer of this repository sets ["_id"] itself. *)
Record document := mk_document {
  oid : N;
  doc_fields : fields
}.

(** The collection [strava_db.activities]: documents in natural order, the
    next [_id] to hand out, and whether the unique index on ["id"] exists. *)
Record collection := mk_collection {
  docs : list document;
  next_oid : N;
  unique_index : bool
}.

(** A missing ["id"] is indexed and matched as null. *)
Definition fields_id (f : fields) : value := default VNull (f !! "id").
Definition doc_id (d : document) : value := fields_id (doc_fields d).

(** The filter [{"id": v}]: values are compared as they are (the store's
    comparison of an integer with the float of the same value is left
    out). *)
Definition matches_id (v : value) (d : document) : bool :=
  bool_decide (doc_id d = v).

Definition id_taken (v : value) (ds : list document) : bool :=
  existsb (matches_id v) ds.

(** [find_one({"id": v})]: the first match in natural order. *)
Definition find_one (v : value) (c : collection) : option document :=
  List.find (matches_id v) (docs c).

(** [find().skip(offset)] and [.limit(limit)]. *)
Definition find_skip_limit (offset : nat) (limit : option nat) (c : collection)
  : list document :=
  match limit with
  | None => drop offset (docs c)
  | Some n => take n (drop offset (docs c))
  end.

(** [create_index("id", unique=True)]: refused when the collection already
    holds two documents with one id. *)
Definition create_index (c : collection) : exn + collection :=
  if bool_decide (NoDup (doc_id <$> docs c))
  then inr (mk_collection (docs c) (next_oid c) true)
  else inl DuplicateKeyError.

(** [insert_one(f)] *)
Definition insert_one (f : fields) (c : collection) : exn + collection :=
  if unique_index c && id_taken (fields_id f) (docs c)
  then inl DuplicateKeyError
  else inr (mk_collection (docs c ++ [mk_document (next_oid c) f])
                          (N.succ (next_oid c)) (unique_index c)).

(** The first document that satisfies [p], with what stands before and
    after it. *)
Fixpoint split_first (p : document → bool) (ds : list document)
  : option (list document * document * list document) :=
  match ds with
  | [] => None
  | d :: rest =>
      if p d then Some ([], d, rest)
      else '(pre, x, post) ← split_first p rest; Some (d :: pre, x, post)
  end.

(** The update document [{"$set": new}] applied to [d]: every field of
    [new] is written, the other fields of [d] stay. *)
Definition apply_set (new : fields) (d : document) : document :=
  mk_document (oid d) (new ∪ doc_fields d).

(** [update_one({"id": v}, {"$set": new}, upsert=...)], also the write of
    [find_one_and_update]: the first match is updated in place; with no
    match and [upsert], a document made of the filter's equality and the
    update is inserted.  Returns the document written, if any. *)
Definition update_one (v : value) (new : fields) (upsert : bool) (c : collection)
  : exn + (option document * collection) :=
  match split_first (matches_id v) (docs c) with
  | Some (pre, d, post) =>
      let d' := apply_set new d in
      if unique_index c && id_taken (doc_id d') (pre ++ post)
      then inl DuplicateKeyError
      else inr (Some d', mk_collection (pre ++ d' :: post) (next_oid c) (unique_index c))
  | None =>
      if upsert then
        let f := new ∪ {[ "id" := v ]} in
        c' ← insert_one f c;
        mret (Some (mk_document (next_oid c) f), c')
      else inr (None, c)
  end.

(** [delete_one({"id": v})]: the number of documents deleted. *)
Definition delete_one (v : value) (c : collection) : Z * collection :=
  match split_first (matches_id v) (docs c) with
  | Some (pre, d, post) => (1, mk_collection (pre ++ post) (next_oid c) (unique_index c))
  | None => (0, c)
  end.

(** The invariant of the data model: no two documents share an id. *)
Definition unique_ids (c : collection) : Prop := NoDup (doc_id <$> docs c).

(** The documents stored under id [v]. *)
Definition docs_with_id (v : value) (c : collection) : list document :=
  List.filter (matches_id v) (docs c).

(* ===================================================================== *)
(** ** Library functions, configuration, output trace *)
(* ===================================================================== *)

(** The third-party functions the code calls.  [strptime s fmt] is [None]
    when Python raises [ValueError]; [polyline_decode] may raise on a
    malformed string. *)
Class PyLibs := {
  strptime : string → string → option datetime;
  isoformat : datetime → string;
  polyline_decode : string → exn + list (spec_float * spec_float)
}.

(** The environment-provided settings of the sync process. *)
Record config := mk_config {
  STRAVA_CLIENT_ID : string;
  STRAVA_CLIENT_SECRET : string;
  STRAVA_REFRESH_TOKEN : string;
  ACTIVITIES_PER_PAGE : Z
}.

Inductive http_request :=
| PostToken (client_id client_secret refresh_token grant_type : string)
| GetActivities (page per_page : Z) (bearer : value).

(** What the code reads of a [requests] response; [json] is the result of
    [response.json()]. *)
Record response := mk_response {
  status_code : Z;
  json : exn + value;
  text : string
}.

(** The upstream service, as seen during one cycle. *)
Abbreviation server := (http_request → response).

Inductive level := INFO | ERROR.

(** The log lines of the sync process (wall-clock stamps left out). *)
Inductive message :=
| MsgDatabaseInitialized
| MsgRefreshing
| MsgRefreshed
| MsgErrorRefreshing (status : Z) (body : string)
| MsgErrorFetching (status : Z) (body : string)
| MsgSaved (id name : value)
| MsgErrorSaving (id : value) (e : exn)
| MsgStartingSync
| MsgFetchingPage (page : Z)
| MsgNoMoreActivities
| MsgSyncComplete.

Inductive event :=
| Log (l : level) (m : message)
| Request (r : http_request).

Abbreviation trace := (list event).

(** The requests of a trace, in order. *)
Fixpoint requests_of (t : trace) : list http_request :=
  match t with
  | [] => []
  | Request r :: rest => r :: requests_of rest
  | Log _ _ :: rest => requests_of rest
  end.

(** The pages asked for in a trace, in order. *)
Fixpoint pages_of (t : trace) : list Z :=
  match t with
  | [] => []
  | Request (GetActivities page _ _) :: rest => page :: pages_of rest
  | _ :: rest => pages_of rest
  end.

(* ===================================================================== *)
(** ** The sync process: strava_db_sync_mongodb_atlas.py *)
(* ===================================================================== *)

Module Sync.
Section WithLibs.
Context `{PyLibs}.

(** [datetime.strptime(v, fmt)] *)
Definition py_strptime (v : value) (fmt : string) : exn + value :=
  match v with
  | VStr s =>
      match strptime s fmt with
      | Some d => inr (VDate d)
      | None => inl ValueError
      end
  | _ => inl TypeError
  end.

(** [polyline.decode(v)]: a list of (lat, lng) tuples. *)
Definition py_polyline_decode (v : value) : exn + value :=
  match v with
  | VStr s =>
      pts ← polyline_decode s;
      mret (VList ((λ p, VList [VFloat (fst p); VFloat (snd p)]) <$> pts))
  | _ => inl TypeError
  end.

(** Lines 99-127: the document built from one upstream record. *)
Definition activity_document (activity : value) : exn + fields :=
  map_data ← py_get activity "map" (VObj []);
  polyline_data ← py_get map_data "summary_polyline" VNull;
  decoded_polyline ←
    (if truthy polyline_data then py_polyline_decode polyline_data else inr VNull);
  id ← getitem activity "id";
  name ← getitem activity "name";
  type ← getitem activity "type";
  distance ← py_get activity "distance" VNull;
  moving_time ← py_get activity "moving_time" VNull;
  elapsed_time ← py_get activity "elapsed_time" VNull;
  total_elevation_gain ← py_get activity "total_elevation_gain" VNull;
  sport_type ← py_get activity "sport_type" VNull;
  start_date ←
    (s ← getitem activity "start_date"; py_strptime s "%Y-%m-%dT%H:%M:%SZ");
  start_date_local ←
    (s ← getitem activity "start_date_local"; py_strptime s "%Y-%m-%dT%H:%M:%S%z");
  timezone ← py_get activity "timezone" VNull;
  gear ← py_get activity "gear" VNull;
  average_speed ← py_get activity "average_speed" VNull;
  max_speed ← py_get activity "max_speed" VNull;
  average_cadence ← py_get activity "average_cadence" VNull;
  average_heartrate ← py_get activity "average_heartrate" VNull;
  max_heartrate ← py_get activity "max_heartrate" VNull;
  calories ← py_get activity "calories" VNull;
  mret (list_to_map
    [ ("id", id); ("name", name); ("type", type); ("distance", distance);
      ("moving_time", moving_time); ("elapsed_time", elapsed_time);
      ("total_elevation_gain", total_elevation_gain);
      ("sport_type", sport_type); ("start_date", start_date);
      ("start_date_local", start_date_local); ("timezone", timezone);
      ("map", map_data); ("polyline", polyline_data);
      ("decoded_polyline", decoded_polyline); ("gear", gear);
      ("average_speed", average_speed); ("max_speed", max_speed);
      ("average_cadence", average_cadence);
      ("average_heartrate", average_heartrate);
      ("max_heartrate", max_heartrate); ("calories", calories);
      ("raw_data", activity) ] : fields).

(** Lines 98-129, the body of the [try]: build the document, upsert it
    under the record's id, log the success. *)
Definition save_activity (activity : value) (c : collection)
  : exn + (collection * trace) :=
  activity_document ← activity_document activity;
  id ← getitem activity "id";
  r ← update_one id activity_document true c;
  id' ← getitem activity "id";
  name ← getitem activity "name";
  mret (snd r, [Log INFO (MsgSaved id' name)]).

(** Lines 96-131: the loop over the records with its [except Exception].
    The handler formats [activity['id']] into its message, and what that
    raises is not caught by anything. *)
Fixpoint save_loop (activities : list value) (c : collection)
  : outcome unit * collection * trace :=
  match activities with
  | [] => (Returns tt, c, [])
  | activity :: rest =>
      match save_activity activity c with
      | inr (c', t) =>
          let '(r, c'', t') := save_loop rest c' in (r, c'', t ++ t')
      | inl e =>
          match getitem activity "id" with
          | inr id =>
              let '(r, c'', t') := save_loop rest c in
              (r, c'', Log ERROR (MsgErrorSaving id e) :: t')
          | inl e' => (Raises e', c, [])
          end
      end
  end.

(** [save_activities_to_db(activities)], on a database that is connected:
    [connect_to_db] builds a client and hands back [client.strava_db]. *)
Definition save_activities_to_db (activities : value) (c : collection)
  : outcome unit * collection * trace :=
  match py_iter activities with
  | inr l => save_loop l c
  | inl e => (Raises e, c, [])
  end.

(** [initialize_db()] *)
Definition initialize_db (c : collection) : outcome unit * collection * trace :=
  match create_index c with
  | inr c' => (Returns tt, c', [Log INFO MsgDatabaseInitialized])
  | inl e => (Raises e, c, [])
  end.

Section WithServer.
Variable cfg : config.
Variable srv : server.

(** [refresh_access_token()]: the new value of the global
    [STRAVA_ACCESS_TOKEN] is returned next to the outcome. *)
Definition refresh_access_token (token : value) : outcome unit * value * trace :=
  let request :=
    PostToken (STRAVA_CLIENT_ID cfg) (STRAVA_CLIENT_SECRET cfg)
              (STRAVA_REFRESH_TOKEN cfg) "refresh_token" in
  let response := srv request in
  let sent := [Log INFO MsgRefreshing; Request request] in
  if status_code response =? 200 then
    match token_data ← json response; getitem token_data "access_token" with
    | inr t => (Returns tt, t, sent ++ [Log INFO MsgRefreshed])
    | inl e => (Raises e, token, sent)
    end
  else
    (Exits, token,
     sent ++ [Log ERROR (MsgErrorRefreshing (status_code response) (text response))]).

(** [fetch_activities(page, per_page)] *)
Definition fetch_activities (token : value) (page per_page : Z)
  : outcome value * trace :=
  let request := GetActivities page per_page token in
  let response := srv request in
  if status_code response =? 200 then
    match json response with
    | inr v => (Returns v, [Request request])
    | inl e => (Raises e, [Request request])
    end
  else
    (Returns (VList []),
     [Request request;
      Log ERROR (MsgErrorFetching (status_code response) (text response))]).

(** The state of the sync process. *)
Record world := mk_world {
  db : collection;
  STRAVA_ACCESS_TOKEN : value;
  out : trace
}.

Definition emit (t : trace) (w : world) : world :=
  mk_world (db w) (STRAVA_ACCESS_TOKEN w) (out w ++ t).

(** Lines 144-153, the [while True] of [sync_activities]: [fuel] bounds the
    number of pages; [None] is a loop still running when it is used up. *)
Fixpoint fetch_pages (fuel : nat) (page : Z) (w : world)
  : option (outcome unit * world) :=
  match fuel with
  | O => None
  | S fuel' =>
      let w1 := emit [Log INFO (MsgFetchingPage page)] w in
      let '(r, t) :=
        fetch_activities (STRAVA_ACCESS_TOKEN w1) page (ACTIVITIES_PER_PAGE cfg) in
      let w2 := emit t w1 in
      match r with
      | Returns activities =>
          if negb (truthy activities) then
            Some (Returns tt, emit [Log INFO MsgNoMoreActivities] w2)
          else
            let '(r', c', t') := save_activities_to_db activities (db w2) in
            let w3 := mk_world c' (STRAVA_ACCESS_TOKEN w2) (out w2 ++ t') in
            match r' with
            | Returns _ => fetch_pages fuel' (page + 1) w3
            | Raises e => Some (Raises e, w3)
            | Exits => Some (Exits, w3)
            end
      | Raises e => Some (Raises e, w2)
      | Exits => Some (Exits, w2)
      end
  end.

(** [sync_activities()]: one cycle. *)
Definition sync_activities (fuel : nat) (w : world) : option (outcome unit * world) :=
  let w0 := emit [Log INFO MsgStartingSync] w in
  let '(r, token, t) := refresh_access_token (STRAVA_ACCESS_TOKEN w0) in
  let w1 := mk_world (db w0) token (out w0 ++ t) in
  match r with
  | Returns _ =>
      match fetch_pages fuel 1 w1 with
      | Some (Returns _, w2) => Some (Returns tt, emit [Log INFO MsgSyncComplete] w2)
      | other => other
      end
  | Raises e => Some (Raises e, w1)
  | Exits => Some (Exits, w1)
  end.

End WithServer.
End WithLibs.
End Sync.

(* ===================================================================== *)
(** ** The HTTP API: strava_fast_api.py *)
(* ===================================================================== *)

Module Api.

(** The pydantic model [Activity]: a request body that passed validation.
    Fields whose names clash with Rocq's carry the prefix [a_]. *)
Record Activity := mk_Activity {
  a_id : Z;
  name : string;
  a_type : string;
  distance : spec_float;
  moving_time : Z;
  elapsed_time : Z;
  total_elevation_gain : spec_float;
  sport_type : string;
  start_date : string;
  start_date_local : string;
  timezone : string;
  a_map : option pydict;
  polyline : option string;
  decoded_polyline : option (list (list spec_float));
  average_speed : option spec_float;
  max_speed : option spec_float;
  average_heartrate : option spec_float;
  max_heartrate : option spec_float;
  calories : option spec_float;
  photos : option (list string)
}.

Definition opt {A} (f : A → value) (o : option A) : value :=
  match o with Some a => f a | None => VNull end.

(** [activity.dict()]: every field of the model, unset optional ones as
    [None]. *)
Definition dict (a : Activity) : fields :=
  list_to_map
    [ ("id", VInt (a_id a)); ("name", VStr (name a)); ("type", VStr (a_type a));
      ("distance", VFloat (distance a)); ("moving_time", VInt (moving_time a));
      ("elapsed_time", VInt (elapsed_time a));
      ("total_elevation_gain", VFloat (total_elevation_gain a));
      ("sport_type", VStr (sport_type a)); ("start_date", VStr (start_date a));
      ("start_date_local", VStr (start_date_local a));
      ("timezone", VStr (timezone a)); ("map", opt VObj (a_map a));
      ("polyline", opt VStr (polyline a));
      ("decoded_polyline",
        opt (λ l, VList ((λ p, VList (VFloat <$> p)) <$> l)) (decoded_polyline a));
      ("average_speed", opt VFloat (average_speed a));
      ("max_speed", opt VFloat (max_speed a));
      ("average_heartrate", opt VFloat (average_heartrate a));
      ("max_heartrate", opt VFloat (max_heartrate a));
      ("calories", opt VFloat (calories a));
      ("photos", opt (λ l, VList (VStr <$> l)) (photos a)) ].

(** How a request ends: the handler's return value, an [HTTPException], a
    query parameter refused by its [Query] bounds (422), or an exception
    nobody handles (500). *)
Inductive result (A : Type) :=
| Ok (body : A)
| HTTPException (status_code : Z) (detail : string)
| RequestValidationError
| Unhandled (e : exn).
Arguments Ok {A} body.
Arguments HTTPException {A} status_code detail.
Arguments RequestValidationError {A}.
Arguments Unhandled {A} e.

(** [str(ObjectId)]: 24 hexadecimal digits. *)
Definition hex_digit (n : N) : string :=
  String.substring (N.to_nat n) 1 "0123456789abcdef".

Fixpoint hex (digits : nat) (n : N) : string :=
  match digits with
  | O => ""
  | S k => (hex k (n / 16) ++ hex_digit (n mod 16))%string
  end.

Definition str_oid (n : N) : string := hex 24 n.

(** The dict pymongo hands back for a document, after
    [activity["_id"] = str(activity["_id"])]. *)
Definition with_str_id (d : document) : fields :=
  <["_id" := VStr (str_oid (oid d))]> (doc_fields d).

Section WithLibs.
Context `{PyLibs}.

(** Lines 76-79: a timestamp field that holds a [datetime] becomes its
    ISO-8601 string. *)
Definition iso_field (k : string) (f : fields) : fields :=
  match f !! k with
  | Some (VDate d) => <[k := VStr (isoformat d)]> f
  | _ => f
  end.

(** [jsonable_encoder]: the remaining [datetime]s, at any depth, become
    ISO-8601 strings. *)
Fixpoint jsonable (v : value) : value :=
  match v with
  | VDate d => VStr (isoformat d)
  | VList l => VList (List.map jsonable l)
  | VObj kvs => VObj (List.map (λ kv, (fst kv, jsonable (snd kv))) kvs)
  | _ => v
  end.

(** Lines 73-83: the shaping of one document of the list. *)
Definition shape (include_polyline : bool) (d : document) : fields :=
  let activity := with_str_id d in
  let activity := iso_field "start_date" activity in
  let activity := iso_field "start_date_local" activity in
  if include_polyline then activity else delete "decoded_polyline" activity.

(** [get_activities(limit, offset, include_polyline)] *)
Definition get_activities (limit : option Z) (offset : Z) (include_polyline : bool)
    (c : collection) : result (list fields) :=
  if negb (match limit with None => true | Some l => (1 <=? l) && (l <=? 1000) end)
     || negb (0 <=? offset)
  then RequestValidationError
  else
    let activities := find_skip_limit (Z.to_nat offset) (Z.to_nat <$> limit) c in
    Ok (fmap (M := list) (fmap (M := gmap string) jsonable)
          (shape include_polyline <$> activities)).

End WithLibs.

(** [get_activity(activity_id)] *)
Definition get_activity (activity_id : Z) (c : collection) : result fields :=
  match find_one (VInt activity_id) c with
  | None => HTTPException 404 "Activity not found"
  | Some d => Ok (with_str_id d)
  end.

(** [create_activity(activity)] *)
Definition create_activity (activity : Activity) (c : collection)
  : result Activity * collection :=
  match find_one (VInt (a_id activity)) c with
  | Some _ => (HTTPException 400 "Activity with this ID already exists", c)
  | None =>
      match insert_one (dict activity) c with
      | inr c' => (Ok activity, c')
      | inl e => (Unhandled e, c)
      end
  end.

(** [update_activity(activity_id, activity)] *)
Definition update_activity (activity_id : Z) (activity : Activity) (c : collection)
  : result fields * collection :=
  match update_one (VInt activity_id) (dict activity) false c with
  | inl e => (Unhandled e, c)
  | inr (None, c') => (HTTPException 404 "Activity not found", c')
  | inr (Some d, c') => (Ok (with_str_id d), c')
  end.

(** [delete_activity(activity_id)] *)
Definition delete_activity (activity_id : Z) (c : collection)
  : result unit * collection :=
  let '(deleted_count, c') := delete_one (VInt activity_id) c in
  if deleted_count =? 0 then (HTTPException 404 "Activity not found", c')
  else (Ok tt, c').

End Api.

(* ===================================================================== *)
(** ** Facts about the store *)
(* ===================================================================== *)

Section StoreFacts.
Implicit Types (d : document) (ds pre post : list document) (v : value)
  (c : collection) (new : fields).

Lemma matches_id_true v d : matches_id v d = true ↔ doc_id d = v.
Proof. unfold matches_id. apply bool_decide_eq_true. Qed.

Lemma matches_id_false v d : matches_id v d = false ↔ doc_id d ≠ v.
Proof. unfold matches_id. apply bool_decide_eq_false. Qed.

Lemma id_taken_true v ds : id_taken v ds = true ↔ v ∈ doc_id <$> ds.
Proof.
  unfold id_taken. induction ds as [|d ds IH]; simpl.
  - split; [discriminate | intros Hin; inversion Hin].
  - rewrite orb_true_iff, IH, matches_id_true, elem_of_cons. intuition congruence.
Qed.

Lemma id_taken_false v ds : id_taken v ds = false ↔ v ∉ doc_id <$> ds.
Proof.
  rewrite <- id_taken_true. destruct (id_taken v ds); intuition congruence.
Qed.

Lemma split_first_Some p ds pre d post :
  split_first p ds = Some (pre, d, post) →
  ds = pre ++ d :: post ∧ p d = true ∧ Forall (λ x, p x = false) pre.
Proof.
  revert pre. induction ds as [|x ds IH]; intros pre Hs; simpl in Hs.
  - discriminate.
  - destruct (p x) eqn:Hp.
    + inversion Hs; subst. auto.
    + destruct (split_first p ds) as [[[pre' x'] post']|]; simpl in Hs; [|discriminate].
      inversion Hs; subst. destruct (IH pre' eq_refl) as (-> & Hd & Hpre).
      split; [reflexivity|]. split; [assumption|]. constructor; assumption.
Qed.

Lemma split_first_None p ds :
  split_first p ds = None → Forall (λ x, p x = false) ds.
Proof.
  induction ds as [|x ds IH]; simpl; intros Hs; [constructor|].
  destruct (p x) eqn:Hp; [discriminate|].
  destruct (split_first p ds) as [[[pre' x'] post']|]; [discriminate|].
  constructor; auto.
Qed.

Lemma find_split_first p ds :
  List.find p ds = (λ t, snd (fst t)) <$> split_first p ds.
Proof.
  induction ds as [|x ds IH]; simpl; [reflexivity|].
  destruct (p x); [reflexivity|]. rewrite IH.
  destruct (split_first p ds) as [[[pre' x'] post']|]; reflexivity.
Qed.

Lemma find_app_first p pre d post :
  Forall (λ x, p x = false) pre → p d = true →
  List.find p (pre ++ d :: post) = Some d.
Proof.
  induction 1 as [|x pre Hx _ IH]; simpl; intros Hd.
  - rewrite Hd. reflexivity.
  - rewrite Hx. auto.
Qed.

Lemma no_match_not_taken v ds :
  Forall (λ x, matches_id v x = false) ds → v ∉ doc_id <$> ds.
Proof.
  intros Hall Hin. apply list_elem_of_fmap in Hin as (d & -> & Hd).
  rewrite Forall_forall in Hall. specialize (Hall d Hd).
  apply matches_id_false in Hall. congruence.
Qed.

Lemma find_one_None v c : find_one v c = None → v ∉ doc_id <$> docs c.
Proof.
  unfold find_one. rewrite find_split_first.
  destruct (split_first _ _) as [[[pre x] post]|] eqn:Hs; [discriminate|].
  intros _. apply no_match_not_taken, split_first_None, Hs.
Qed.

Lemma find_one_Some v c d : find_one v c = Some d → d ∈ docs c ∧ doc_id d = v.
Proof.
  unfold find_one. intros Hf. apply find_some in Hf as [Hin Hm].
  split; [apply list_elem_of_In, Hin | apply matches_id_true, Hm].
Qed.

(** The id of a document after [$set]. *)
Lemma fields_id_union new (old : fields) v :
  new !! "id" = Some v → fields_id (new ∪ old) = v.
Proof.
  intros Hid. unfold fields_id.
  rewrite (lookup_union_Some_l new old "id" v Hid). reflexivity.
Qed.

Lemma lookup_apply_set new d k :
  doc_fields (apply_set new d) !! k =
  match new !! k with Some x => Some x | None => doc_fields d !! k end.
Proof.
  unfold apply_set; simpl. rewrite lookup_union.
  destruct (new !! k), (doc_fields d !! k); reflexivity.
Qed.

(** A document whose fields all occur in the update is replaced by it. *)
Lemma apply_set_covers new d :
  dom (doc_fields d) ⊆ dom new → doc_fields (apply_set new d) = new.
Proof.
  intros Hsub. apply map_eq. intros k. rewrite lookup_apply_set.
  destruct (new !! k) eqn:Hk; [reflexivity|].
  apply not_elem_of_dom. intros Hin. apply Hsub in Hin.
  apply elem_of_dom in Hin as [x Hx]. congruence.
Qed.

Lemma upsert_fields new v :
  new !! "id" = Some v → new ∪ ({[ "id" := v ]} : fields) = new.
Proof.
  intros Hid. apply map_eq. intros k. rewrite lookup_union.
  destruct (decide (k = "id")) as [->|Hne].
  - rewrite Hid, lookup_singleton_eq. reflexivity.
  - rewrite lookup_singleton_ne by congruence. destruct (new !! k); reflexivity.
Qed.

(** What [update_one] does when a document matches. *)
Lemma update_one_match v new upsert c pre d post :
  split_first (matches_id v) (docs c) = Some (pre, d, post) →
  update_one v new upsert c =
    if unique_index c && id_taken (doc_id (apply_set new d)) (pre ++ post)
    then inl DuplicateKeyError
    else inr (Some (apply_set new d),
              mk_collection (pre ++ apply_set new d :: post)
                            (next_oid c) (unique_index c)).
Proof. intros Hs. unfold update_one. rewrite Hs. reflexivity. Qed.

(** Rewriting a document under its own id cannot collide with another. *)
Lemma same_id_not_taken pre d post d' :
  NoDup (doc_id <$> pre ++ d :: post) → doc_id d' = doc_id d →
  id_taken (doc_id d') (pre ++ post) = false.
Proof.
  intros Hnd Heq. apply id_taken_false. rewrite Heq.
  rewrite fmap_app, fmap_cons in Hnd. rewrite fmap_app.
  apply NoDup_app in Hnd as (_ & Hdisj & Hpost).
  apply NoDup_cons in Hpost as [Hnot _].
  intros Hin. apply elem_of_app in Hin as [Hin|Hin]; [|contradiction].
  apply (Hdisj _ Hin). left.
Qed.

Lemma NoDup_replace_middle (xs ys : list value) (x y : value) :
  NoDup (xs ++ x :: ys) → y ∉ xs ++ ys → NoDup (xs ++ y :: ys).
Proof.
  rewrite !NoDup_app, !NoDup_cons. intros (Hxs & Hdisj & _ & Hys) Hy.
  rewrite elem_of_app in Hy. split; [assumption|]. split.
  - intros z Hz Hin. apply elem_of_cons in Hin as [->|Hin]; [tauto|].
    apply (Hdisj z Hz). right. assumption.
  - tauto.
Qed.

(** [update_one] keeps the ids distinct when the index is there, or when
    the update carries the id it filters on. *)
Lemma update_one_unique v new upsert c r c' :
  unique_ids c →
  unique_index c = true ∨ new !! "id" = Some v →
  update_one v new upsert c = inr (r, c') →
  unique_ids c' ∧ unique_index c' = unique_index c.
Proof.
  unfold unique_ids. intros Hnd Hcase Hu. unfold update_one in Hu.
  destruct (split_first (matches_id v) (docs c)) as [[[pre d] post]|] eqn:Hs.
  - apply split_first_Some in Hs as (Hdocs & Hm & _).
    apply matches_id_true in Hm. rewrite Hdocs in Hnd.
    destruct (unique_index c && id_taken _ (pre ++ post)) eqn:Hchk; [discriminate|].
    inversion Hu; subst r c'; clear Hu. simpl. split; [|reflexivity].
    rewrite fmap_app, fmap_cons in *.
    apply NoDup_replace_middle with (x := doc_id d); [assumption|].
    rewrite <- fmap_app. apply id_taken_false.
    destruct Hcase as [Hidx|Hid].
    + rewrite Hidx in Hchk. exact Hchk.
    + apply same_id_not_taken with (d := d).
      * rewrite fmap_app, fmap_cons. assumption.
      * unfold doc_id at 1. simpl. rewrite (fields_id_union _ _ _ Hid). congruence.
  - destruct upsert; [|inversion Hu; subst; auto].
    unfold insert_one in Hu.
    destruct (unique_index c && id_taken _ (docs c)) eqn:Hchk; [discriminate|].
    simpl in Hu. inversion Hu; subst r c'; clear Hu. simpl. split; [|reflexivity].
    rewrite fmap_app. simpl. apply NoDup_app. split; [assumption|]. split.
    + intros x Hx Hin. apply list_elem_of_singleton in Hin. subst x.
      revert Hx. unfold doc_id at 1. simpl.
      destruct Hcase as [Hidx|Hid].
      * rewrite Hidx in Hchk. apply id_taken_false. exact Hchk.
      * rewrite (fields_id_union _ _ _ Hid).
        apply no_match_not_taken, split_first_None, Hs.
    + apply NoDup_singleton.
Qed.

(** [insert_one] after a [find_one] that found nothing. *)
Lemma insert_one_fresh f c :
  find_one (fields_id f) c = None →
  insert_one f c =
    inr (mk_collection (docs c ++ [mk_document (next_oid c) f])
                       (N.succ (next_oid c)) (unique_index c)).
Proof.
  intros Hf. unfold insert_one.
  apply find_one_None, id_taken_false in Hf. rewrite Hf, andb_false_r. reflexivity.
Qed.

End StoreFacts.

(* ===================================================================== *)
(** ** A reference instance of the library functions *)
(* ===================================================================== *)

(** An executable instance of [PyLibs], for running the model on concrete
    records: [strptime] on the fixed-width timestamps the upstream service
    sends (it accepts no other spelling), [isoformat], and the polyline
    algorithm at precision 5 over binary64. *)
Module RefLibs.

Definition digit (a : Ascii.ascii) : option Z :=
  let n := Z.of_N (Ascii.N_of_ascii a) in
  if (48 <=? n) && (n <=? 57) then Some (n - 48) else None.

(** A run of decimal digits, most significant first. *)
Fixpoint number (acc : Z) (s : string) : option Z :=
  match s with
  | EmptyString => Some acc
  | String a rest => d ← digit a; number (10 * acc + d) rest
  end.

Definition field (start len : nat) (s : string) : option Z :=
  let t := String.substring start len s in
  if Nat.eqb (String.length t) len then number 0 t else None.

Definition leap (y : Z) : bool :=
  ((y mod 4 =? 0) && negb (y mod 100 =? 0)) || (y mod 400 =? 0).

Definition days_in_month (y m : Z) : Z :=
  if m =? 2 then (if leap y then 29 else 28)
  else if (m =? 4) || (m =? 6) || (m =? 9) || (m =? 11) then 30 else 31.

(** [YYYY-MM-DDTHH:MM:SS], the first 19 characters. *)
Definition date_time (s : string) (off : option Z) : option datetime :=
  y ← field 0 4 s; mo ← field 5 2 s; d ← field 8 2 s;
  h ← field 11 2 s; mi ← field 14 2 s; se ← field 17 2 s;
  if String.eqb (String.substring 4 1 s) "-" && String.eqb (String.substring 7 1 s) "-"
     && String.eqb (String.substring 10 1 s) "T"
     && String.eqb (String.substring 13 1 s) ":"
     && String.eqb (String.substring 16 1 s) ":"
     && (1 <=? y) && (1 <=? mo) && (mo <=? 12) && (1 <=? d)
     && (d <=? days_in_month y mo) && (h <=? 23) && (mi <=? 59) && (se <=? 59)
  then Some (mk_datetime y mo d h mi se off) else None.

(** [Z], [+HH:MM] or [-HH:MM] after the first 19 characters. *)
Definition offset (s : string) : option Z :=
  let t := String.substring 19 (String.length s - 19) s in
  if String.eqb t "Z" then Some 0
  else if Nat.eqb (String.length t) 6 && String.eqb (String.substring 3 1 t) ":" then
    h ← field 1 2 t; m ← field 4 2 t;
    if negb (m <=? 59) then None
    else if String.eqb (String.substring 0 1 t) "+" then Some (3600 * h + 60 * m)
    else if String.eqb (String.substring 0 1 t) "-" then Some (- (3600 * h + 60 * m))
    else None
  else None.

Definition parse_timestamp (s fmt : string) : option datetime :=
  if String.eqb fmt "%Y-%m-%dT%H:%M:%SZ" then
    if Nat.eqb (String.length s) 20 && String.eqb (String.substring 19 1 s) "Z"
    then date_time s None else None
  else if String.eqb fmt "%Y-%m-%dT%H:%M:%S%z" then
    off ← offset s; date_time s (Some off)
  else None.

(** [n] in decimal, padded with zeros to [width] digits. *)
Fixpoint dec (width : nat) (n : Z) : string :=
  match width with
  | O => ""
  | S k =>
      (dec k (n / 10)
       ++ String (Ascii.ascii_of_N (Z.to_N (48 + n mod 10))) EmptyString)%string
  end.

Definition format_timestamp (d : datetime) : string :=
  (dec 4 (year d) ++ "-" ++ dec 2 (month d) ++ "-" ++ dec 2 (day d) ++ "T"
   ++ dec 2 (hour d) ++ ":" ++ dec 2 (minute d) ++ ":" ++ dec 2 (second d)
   ++ match utcoffset d with
      | None => ""
      | Some o =>
          (if (o <? 0)%Z then "-" else "+")
          ++ dec 2 (Z.abs o / 3600) ++ ":" ++ dec 2 (Z.abs o mod 3600 / 60)
      end)%string.

(** One varint of the polyline encoding: five bits per character, low
    group first, the lowest bit of the sum carrying the sign. *)
Fixpoint trans (s : list Z) (result shift : Z) : exn + (Z * list Z) :=
  match s with
  | [] => inl IndexError
  | ch :: rest =>
      let byte := ch - 63 in
      let result := Z.lor result (Z.shiftl (Z.land byte 31) shift) in
      if 32 <=? byte then trans rest result (shift + 5)
      else inr (if Z.odd result then Z.lnot (Z.shiftr result 1)
                else Z.shiftr result 1, rest)
  end.

Lemma trans_shorter s : ∀ result shift v rest,
  trans s result shift = inr (v, rest) → (length rest < length s)%nat.
Proof.
  induction s as [|ch s IH]; simpl; intros result shift v rest Ht; [discriminate|].
  destruct (32 <=? ch - 63).
  - apply IH in Ht. lia.
  - inversion Ht; subst. lia.
Qed.

(** An integer over [10 ** 5], as Python's true division of an [int] by a
    [float] gives it. *)
Definition binary64 (m e : Z) : spec_float := binary_normalize 53 1024 m e false.
Definition over_factor (n : Z) : spec_float :=
  SFdiv 53 1024 (binary64 n 0) (binary64 100000 0).

Fixpoint decode_loop (fuel : nat) (s : list Z) (lat lng : Z)
  : exn + list (spec_float * spec_float) :=
  match fuel, s with
  | _, [] => inr []
  | O, _ => inr []
  | S fuel', _ =>
      '(lat_change, s1) ← trans s 0 0;
      '(lng_change, s2) ← trans s1 0 0;
      let lat := lat + lat_change in
      let lng := lng + lng_change in
      rest ← decode_loop fuel' s2 lat lng;
      mret ((over_factor lat, over_factor lng) :: rest)
  end.

Fixpoint codes (s : string) : list Z :=
  match s with
  | EmptyString => []
  | String a rest => Z.of_N (Ascii.N_of_ascii a) :: codes rest
  end.

Definition decode (s : string) : exn + list (spec_float * spec_float) :=
  decode_loop (String.length s) (codes s) 0 0.

#[export] Instance libs : PyLibs := {|
  strptime := parse_timestamp;
  isoformat := format_timestamp;
  polyline_decode := decode
|}.

End RefLibs.


(* ===================================================================== *)
(** ** Facts about the record transformation *)
(* ===================================================================== *)

Section DocumentFacts.
Context `{PyLibs}.
Import Sync.

(** The 22 keys of a document written by the sync. *)
Definition sync_keys : list string :=
  [ "id"; "name"; "type"; "distance"; "moving_time"; "elapsed_time";
    "total_elevation_gain"; "sport_type"; "start_date"; "start_date_local";
    "timezone"; "map"; "polyline"; "decoded_polyline"; "gear";
    "average_speed"; "max_speed"; "average_cadence"; "average_heartrate";
    "max_heartrate"; "calories"; "raw_data" ].

(** The decoded geometry of a polyline value (line 101). *)
Definition decoded_of (polyline_data : value) : exn + value :=
  if truthy polyline_data then py_polyline_decode polyline_data else inr VNull.

(** The successful runs of [activity_document], spelled out. *)
Lemma activity_document_inv activity doc :
  activity_document activity = inr doc →
  ∃ kvs map_kvs decoded id name type sd sdl d1 d2,
    activity = VObj kvs ∧
    default (VObj []) (assoc "map" kvs) = VObj map_kvs ∧
    decoded_of (default VNull (assoc "summary_polyline" map_kvs)) = inr decoded ∧
    assoc "id" kvs = Some id ∧ assoc "name" kvs = Some name ∧
    assoc "type" kvs = Some type ∧
    assoc "start_date" kvs = Some (VStr sd) ∧
    strptime sd "%Y-%m-%dT%H:%M:%SZ" = Some d1 ∧
    assoc "start_date_local" kvs = Some (VStr sdl) ∧
    strptime sdl "%Y-%m-%dT%H:%M:%S%z" = Some d2 ∧
    doc = list_to_map
      [ ("id", id); ("name", name); ("type", type);
        ("distance", default VNull (assoc "distance" kvs));
        ("moving_time", default VNull (assoc "moving_time" kvs));
        ("elapsed_time", default VNull (assoc "elapsed_time" kvs));
        ("total_elevation_gain", default VNull (assoc "total_elevation_gain" kvs));
        ("sport_type", default VNull (assoc "sport_type" kvs));
        ("start_date", VDate d1); ("start_date_local", VDate d2);
        ("timezone", default VNull (assoc "timezone" kvs));
        ("map", VObj map_kvs);
        ("polyline", default VNull (assoc "summary_polyline" map_kvs));
        ("decoded_polyline", decoded);
        ("gear", default VNull (assoc "gear" kvs));
        ("average_speed", default VNull (assoc "average_speed" kvs));
        ("max_speed", default VNull (assoc "max_speed" kvs));
        ("average_cadence", default VNull (assoc "average_cadence" kvs));
        ("average_heartrate", default VNull (assoc "average_heartrate" kvs));
        ("max_heartrate", default VNull (assoc "max_heartrate" kvs));
        ("calories", default VNull (assoc "calories" kvs));
        ("raw_data", VObj kvs) ].
Proof.
  unfold activity_document. intros Hdoc.
  destruct activity as [| | | | | | |kvs]; try discriminate Hdoc.
  cbn [py_get mbind exn_bind] in Hdoc.
  destruct (default (VObj []) (assoc "map" kvs)) as [| | | | | | |map_kvs] eqn:Hmap;
    try discriminate Hdoc.
  cbn [py_get mbind exn_bind] in Hdoc.
  fold (decoded_of (default VNull (assoc "summary_polyline" map_kvs))) in Hdoc.
  destruct (decoded_of _) as [e|decoded] eqn:Hdec; [discriminate Hdoc|].
  cbn [getitem mbind exn_bind] in Hdoc.
  destruct (assoc "id" kvs) as [id|] eqn:Hid; [|discriminate Hdoc].
  destruct (assoc "name" kvs) as [name|] eqn:Hname; [|discriminate Hdoc].
  destruct (assoc "type" kvs) as [type|] eqn:Htype; [|discriminate Hdoc].
  cbn [mbind exn_bind] in Hdoc.
  destruct (assoc "start_date" kvs) as [sdv|] eqn:Hsd; [|discriminate Hdoc].
  cbn [mbind exn_bind] in Hdoc.
  destruct sdv as [| | | |sd| | |]; try discriminate Hdoc.
  cbn [py_strptime] in Hdoc.
  destruct (strptime sd _) as [d1|] eqn:Hd1; [|discriminate Hdoc].
  destruct (assoc "start_date_local" kvs) as [sdlv|] eqn:Hsdl; [|discriminate Hdoc].
  cbn [mbind exn_bind] in Hdoc.
  destruct sdlv as [| | | |sdl| | |]; try discriminate Hdoc.
  cbn [py_strptime] in Hdoc.
  destruct (strptime sdl _) as [d2|] eqn:Hd2; [|discriminate Hdoc].
  cbn [mbind exn_bind mret exn_ret] in Hdoc.
  apply (inj inr) in Hdoc.
  exists kvs, map_kvs, decoded, id, name, type, sd, sdl, d1, d2.
  repeat (split; [first [reflexivity | assumption]|]).
  symmetry. exact Hdoc.
Qed.

End DocumentFacts.

Section UpsertFacts.
Context `{PyLibs}.
Import Sync.

Lemma union_covers (new old : fields) : dom old ⊆ dom new → new ∪ old = new.
Proof.
  intros Hsub. apply map_eq. intros k. rewrite lookup_union.
  destruct (new !! k) eqn:Hk; [destruct (old !! k); reflexivity|].
  assert (old !! k = None) as ->; [|reflexivity].
  apply not_elem_of_dom. intros Hin. apply Hsub in Hin.
  apply elem_of_dom in Hin as [x Hx]. congruence.
Qed.

Lemma activity_document_dom activity doc :
  activity_document activity = inr doc → dom doc = list_to_set sync_keys.
Proof.
  intros Hdoc.
  destruct (activity_document_inv _ _ Hdoc)
    as (kvs & mk & dec & id & nm & ty & sd & sdl & d1 & d2 & _ & _ & _ & _ & _ & _ & _ & _ & _ & _ & ->).
  rewrite dom_list_to_map_L. reflexivity.
Qed.

Lemma activity_document_id activity doc :
  activity_document activity = inr doc →
  ∃ id name, getitem activity "id" = inr id ∧ getitem activity "name" = inr name
             ∧ doc !! "id" = Some id.
Proof.
  intros Hdoc.
  destruct (activity_document_inv _ _ Hdoc)
    as (kvs & mk & dec & id & nm & ty & sd & sdl & d1 & d2 & -> & _ & _ & Hid & Hnm & _ & _ & _ & _ & _ & ->).
  exists id, nm. cbn [getitem]. rewrite Hid, Hnm.
  split; [reflexivity|]. split; [reflexivity|]. vm_compute. reflexivity.
Qed.

Lemma filter_none {A} (p : A → bool) (l : list A) :
  Forall (λ x, p x = false) l → List.filter p l = [].
Proof.
  induction 1 as [|x l Hx _ IH]; simpl; [reflexivity|]. rewrite Hx. exact IH.
Qed.

Lemma unique_others_differ pre d post :
  NoDup (doc_id <$> pre ++ d :: post) →
  Forall (λ x, matches_id (doc_id d) x = false) (pre ++ post).
Proof.
  intros Hnd. rewrite fmap_app, fmap_cons in Hnd.
  apply NoDup_app in Hnd as (_ & Hdisj & Hpost).
  apply NoDup_cons in Hpost as [Hnot _].
  apply Forall_forall. intros x Hx. apply matches_id_false. intros Heq.
  apply elem_of_app in Hx as [Hx|Hx].
  - apply (Hdisj (doc_id x)); [apply list_elem_of_fmap_2, Hx|]. rewrite Heq. left.
  - apply Hnot. rewrite <- Heq. apply list_elem_of_fmap_2, Hx.
Qed.

(** The upsert of the sync: with distinct ids in the store and an update
    that carries the id it filters on, it never fails; it writes
    [new] over the stored document, or inserts [new]; afterwards the id
    names exactly the document written. *)
Lemma upsert_spec v new c :
  unique_ids c → new !! "id" = Some v →
  ∃ d' c',
    update_one v new true c = inr (Some d', c') ∧
    d' = match find_one v c with
         | Some old => apply_set new old
         | None => mk_document (next_oid c) new
         end ∧
    docs_with_id v c' = [d'] ∧ find_one v c' = Some d' ∧ unique_ids c'.
Proof.
  intros Hnd Hid.
  assert (∀ r c', update_one v new true c = inr (r, c') → unique_ids c') as Hkeep.
  { intros r c' Hu. eapply update_one_unique in Hu as [? _]; eauto. }
  unfold find_one, docs_with_id. rewrite find_split_first.
  unfold update_one in *.
  destruct (split_first (matches_id v) (docs c)) as [[[pre d] post]|] eqn:Hs; simpl.
  - apply split_first_Some in Hs as (Hdocs & Hm & Hpre).
    pose proof Hm as Hmv. apply matches_id_true in Hmv.
    unfold unique_ids in Hnd. rewrite Hdocs in Hnd.
    assert (doc_id (apply_set new d) = v) as Hid'.
    { unfold doc_id. simpl. apply fields_id_union, Hid. }
    rewrite Hid' in *.
    assert (id_taken v (pre ++ post) = false) as Htaken.
    { rewrite <- Hmv. apply same_id_not_taken with (d := d); [exact Hnd | reflexivity]. }
    rewrite Htaken, andb_false_r in *.
    exists (apply_set new d), (mk_collection (pre ++ apply_set new d :: post)
                                 (next_oid c) (unique_index c)).
    pose proof (unique_others_differ _ _ _ Hnd) as Hoth. rewrite Hmv in Hoth.
    apply Forall_app in Hoth as [Hopre Hopost].
    assert (matches_id v (apply_set new d) = true) as Hm' by (apply matches_id_true, Hid').
    repeat split; simpl.
    + rewrite List.filter_app. simpl. rewrite Hm'.
      rewrite (filter_none _ _ Hopre), (filter_none _ _ Hopost). reflexivity.
    + apply find_app_first; assumption.
    + eapply Hkeep. reflexivity.
  - pose proof (split_first_None _ _ Hs) as Hall.
    rewrite (upsert_fields _ _ Hid) in *.
    unfold insert_one in *.
    assert (fields_id new = v) as Hfid by (unfold fields_id; rewrite Hid; reflexivity).
    rewrite Hfid in *.
    assert (id_taken v (docs c) = false) as Htaken.
    { apply id_taken_false, no_match_not_taken, Hall. }
    rewrite Htaken, andb_false_r in *. simpl in *.
    eexists _, _. split; [reflexivity|].
    assert (matches_id v (mk_document (next_oid c) new) = true) as Hm'.
    { apply matches_id_true. exact Hfid. }
    repeat split; simpl.
    + rewrite List.filter_app, (filter_none _ _ Hall). simpl. rewrite Hm'. reflexivity.
    + rewrite <- (app_nil_r [_]) at 1.
      change (docs c ++ [mk_document (next_oid c) new])
        with (docs c ++ mk_document (next_oid c) new :: []).
      apply find_app_first; assumption.
    + eapply Hkeep. reflexivity.
Qed.

(** The [try] body on a record that transforms. *)
Lemma save_activity_spec activity doc id name c :
  unique_ids c →
  activity_document activity = inr doc →
  getitem activity "id" = inr id → getitem activity "name" = inr name →
  ∃ d' c',
    update_one id doc true c = inr (Some d', c') ∧
    save_activity activity c = inr (c', [Log INFO (MsgSaved id name)]).
Proof.
  intros Hnd Hdoc Hid Hname.
  destruct (activity_document_id _ _ Hdoc) as (id' & name' & Hid' & _ & Hdid).
  rewrite Hid in Hid'. inversion Hid'; subst id'.
  destruct (upsert_spec id doc c Hnd Hdid) as (d' & c' & Hu & _).
  exists d', c'. split; [exact Hu|].
  unfold save_activity. rewrite Hdoc. simpl. rewrite Hid. simpl.
  rewrite Hu. simpl. rewrite Hname. reflexivity.
Qed.

End UpsertFacts.

(* ===================================================================== *)
(** ** Sample data *)
(* ===================================================================== *)

Module Samples.
Import RefLibs.

Definition empty_store : collection := mk_collection [] 0 false.
Definition indexed_store : collection := mk_collection [] 0 true.

(** An upstream record with a gear reference and no route. *)
Definition run_fields : pydict :=
  [ ("id", VInt 101); ("name", VStr "Morning Run"); ("type", VStr "Run");
    ("distance", VInt 5000); ("moving_time", VInt 1500);
    ("start_date", VStr "2024-03-01T10:20:30Z");
    ("start_date_local", VStr "2024-03-01T05:20:30Z");
    ("gear", VStr "g77");
    ("map", VObj [("id", VStr "a101"); ("summary_polyline", VStr "")]) ].

Definition run : value := VObj run_fields.

(** The same activity, renamed upstream. *)
Definition run_renamed : value :=
  VObj [ ("id", VInt 101); ("name", VStr "Tempo Run"); ("type", VStr "Run");
         ("distance", VInt 5200);
         ("start_date", VStr "2024-03-01T10:20:30Z");
         ("start_date_local", VStr "2024-03-01T05:20:30Z");
         ("map", VObj [("id", VStr "a101"); ("summary_polyline", VNull)]) ].

(** A record with the required fields only. *)
Definition bare_fields : pydict :=
  [ ("id", VInt 102); ("name", VStr "Walk"); ("type", VStr "Walk");
    ("start_date", VStr "2024-03-02T08:00:00Z");
    ("start_date_local", VStr "2024-03-02T09:00:00+01:00") ].

Definition bare : value := VObj bare_fields.

(** A record without its id. *)
Definition no_id : value :=
  VObj [ ("name", VStr "Evening Ride"); ("type", VStr "Ride");
         ("start_date", VStr "2024-03-03T18:00:00Z");
         ("start_date_local", VStr "2024-03-03T19:00:00+01:00") ].

Definition zero : spec_float := S754_zero false.

(** A request body for activity 101, with a photo. *)
Definition edited : Api.Activity :=
  Api.mk_Activity 101 "Edited Run" "Run" zero 1400 1500 zero "Run"
    "2024-03-01T10:20:30Z" "2024-03-01T05:20:30Z" "(GMT-05:00) America/New_York"
    None None None None None None None None (Some ["p1.jpg"]).

(** A request body whose id is 102. *)
Definition other : Api.Activity :=
  Api.mk_Activity 102 "Walk" "Walk" zero 600 600 zero "Walk"
    "2024-03-02T08:00:00Z" "2024-03-02T09:00:00+01:00" "(GMT+01:00) Europe/Paris"
    None None None None None None None None None.

(** The store after the sync saved [run]. *)
Definition synced_store : collection :=
  snd (fst (Sync.save_activities_to_db (VList [run]) empty_store)).

(** The store after the API created [edited]. *)
Definition created_store : collection :=
  snd (Api.create_activity edited empty_store).

Definition cfg : config := mk_config "id" "secret" "refresh" 200.

Definition ok (v : value) : response := mk_response 200 (inr v) "".

(** An upstream with one page of two activities; the token endpoint
    answers with the token ["t1"]. *)
Definition upstream : server := λ r,
  match r with
  | PostToken _ _ _ _ => ok (VObj [("access_token", VStr "t1")])
  | GetActivities page _ _ =>
      if page =? 1 then ok (VList [run; bare])
      else if page =? 2 then mk_response 429 (inl JSONDecodeError) "Rate Limit Exceeded"
      else ok (VList [])
  end.

(** An upstream whose token endpoint refuses. *)
Definition upstream_401 : server := λ r,
  match r with
  | PostToken _ _ _ _ => mk_response 401 (inl JSONDecodeError) "Unauthorized"
  | _ => upstream r
  end.

(** An upstream whose first page holds a record without id. *)
Definition upstream_no_id : server := λ r,
  match r with
  | GetActivities 1 _ _ => ok (VList [no_id; run])
  | _ => upstream r
  end.

Definition world0 : Sync.world := Sync.mk_world empty_store VNull [].

End Samples.


(* ===================================================================== *)
(** ** Facts about the save step *)
(* ===================================================================== *)

Section SaveFacts.
Context `{PyLibs}.
Import Sync.

(** A record the handler of line 131 can name. *)
Definition has_id (activity : value) : Prop :=
  ∃ id, getitem activity "id" = inr id.

(** The converse of [activity_document_inv]. *)
Lemma activity_document_complete kvs map_kvs decoded id name type sd sdl d1 d2 :
  default (VObj []) (assoc "map" kvs) = VObj map_kvs →
  decoded_of (default VNull (assoc "summary_polyline" map_kvs)) = inr decoded →
  assoc "id" kvs = Some id → assoc "name" kvs = Some name →
  assoc "type" kvs = Some type →
  assoc "start_date" kvs = Some (VStr sd) →
  strptime sd "%Y-%m-%dT%H:%M:%SZ" = Some d1 →
  assoc "start_date_local" kvs = Some (VStr sdl) →
  strptime sdl "%Y-%m-%dT%H:%M:%S%z" = Some d2 →
  activity_document (VObj kvs) = inr (list_to_map
      [ ("id", id); ("name", name); ("type", type);
        ("distance", default VNull (assoc "distance" kvs));
        ("moving_time", default VNull (assoc "moving_time" kvs));
        ("elapsed_time", default VNull (assoc "elapsed_time" kvs));
        ("total_elevation_gain", default VNull (assoc "total_elevation_gain" kvs));
        ("sport_type", default VNull (assoc "sport_type" kvs));
        ("start_date", VDate d1); ("start_date_local", VDate d2);
        ("timezone", default VNull (assoc "timezone" kvs));
        ("map", VObj map_kvs);
        ("polyline", default VNull (assoc "summary_polyline" map_kvs));
        ("decoded_polyline", decoded);
        ("gear", default VNull (assoc "gear" kvs));
        ("average_speed", default VNull (assoc "average_speed" kvs));
        ("max_speed", default VNull (assoc "max_speed" kvs));
        ("average_cadence", default VNull (assoc "average_cadence" kvs));
        ("average_heartrate", default VNull (assoc "average_heartrate" kvs));
        ("max_heartrate", default VNull (assoc "max_heartrate" kvs));
        ("calories", default VNull (assoc "calories" kvs));
        ("raw_data", VObj kvs) ]).
Proof.
  intros Hmap Hdec Hid Hname Htype Hsd Hd1 Hsdl Hd2.
  unfold activity_document. cbn [py_get mbind exn_bind]. rewrite Hmap.
  cbn [py_get mbind exn_bind].
  fold (decoded_of (default VNull (assoc "summary_polyline" map_kvs))).
  rewrite Hdec. cbn [getitem mbind exn_bind].
  rewrite Hid, Hname, Htype, Hsd, Hsdl. cbn [py_strptime mbind exn_bind].
  rewrite Hd1, Hd2. reflexivity.
Qed.

Lemma save_activity_unique activity c c' t :
  unique_ids c → save_activity activity c = inr (c', t) → unique_ids c'.
Proof.
  intros Hnd Hs. unfold save_activity in Hs.
  destruct (activity_document activity) as [e|doc] eqn:Hdoc; [discriminate|].
  destruct (activity_document_id _ _ Hdoc) as (id & name & Hid & Hname & Hdid).
  cbn [mbind exn_bind] in Hs. rewrite Hid in Hs. cbn [mbind exn_bind] in Hs.
  destruct (update_one id doc true c) as [e|[r c1]] eqn:Hu; [discriminate|].
  cbn [mbind exn_bind] in Hs. rewrite Hname in Hs. inversion Hs; subst.
  eapply update_one_unique in Hu as [Hu _]; eauto.
Qed.

(** Whatever the loop does, it leaves distinct ids distinct. *)
Lemma save_loop_unique activities : ∀ c r c' t,
  unique_ids c → save_loop activities c = (r, c', t) → unique_ids c'.
Proof.
  induction activities as [|a rest IH]; intros c r c' t Hnd Hs; simpl in Hs.
  - inversion Hs; subst. assumption.
  - destruct (save_activity a c) as [e|[c1 t1]] eqn:Ha.
    + destruct (getitem a "id") as [e'|id].
      * inversion Hs; subst. assumption.
      * destruct (save_loop rest c) as [[r2 c2] t2] eqn:Hr.
        inversion Hs; subst. eapply IH; eauto.
    + destruct (save_loop rest c1) as [[r2 c2] t2] eqn:Hr.
      inversion Hs; subst. eapply IH; [|exact Hr].
      eapply save_activity_unique; eauto.
Qed.

(** When every record carries an id, the loop reaches the end of the
    list. *)
Lemma save_loop_total activities : ∀ c,
  Forall has_id activities →
  ∃ c' t, save_loop activities c = (Returns tt, c', t).
Proof.
  induction activities as [|a rest IH]; intros c Hall; simpl.
  - eauto.
  - inversion Hall as [|? ? [id Hid] Hrest]; subst.
    destruct (save_activity a c) as [e|[c1 t1]].
    + rewrite Hid. destruct (IH c Hrest) as (c' & t & ->). eauto.
    + destruct (IH c1 Hrest) as (c' & t & ->). eauto.
Qed.

(** A record without id ends the loop with the handler's own [KeyError]. *)
Lemma save_loop_no_id kvs rest c :
  assoc "id" kvs = None →
  save_loop (VObj kvs :: rest) c = (Raises (KeyError "id"), c, []).
Proof.
  intros Hid. simpl.
  assert (save_activity (VObj kvs) c = inl (KeyError "id")
          ∨ ∃ e, save_activity (VObj kvs) c = inl e) as Hfail.
  { right. unfold save_activity.
    destruct (activity_document (VObj kvs)) as [e|doc] eqn:Hdoc.
    - exists e. reflexivity.
    - destruct (activity_document_id _ _ Hdoc) as (id & _ & Hg & _).
      simpl in Hg. rewrite Hid in Hg. discriminate. }
  destruct Hfail as [->|[e ->]]; rewrite Hid; reflexivity.
Qed.

End SaveFacts.

(* ===================================================================== *)
(** ** The upsert of one record *)
(* ===================================================================== *)

(** The fields stored under id [v] before a write ([∅] when there is no
    such document). *)
Definition previous (v : value) (c : collection) : fields :=
  match find_one v c with
  | Some old => doc_fields old
  | None => ∅
  end.

Section SaveOne.
Context `{PyLibs}.
Import Sync.

(** Saving a record that transforms to [doc]: afterwards its id names one
    document, whose fields are [doc] laid over the previous version. *)
Lemma save_activity_merges c activity doc id :
  unique_ids c →
  activity_document activity = inr doc →
  getitem activity "id" = inr id →
  ∃ c' t d,
    save_activity activity c = inr (c', t) ∧
    docs_with_id id c' = [d] ∧ find_one id c' = Some d ∧ unique_ids c' ∧
    doc_fields d = doc ∪ previous id c.
Proof.
  intros Hnd Hdoc Hid.
  destruct (activity_document_id _ _ Hdoc) as (id' & name & Hid' & Hname & Hdid).
  rewrite Hid in Hid'. inversion Hid'; subst id'.
  destruct (save_activity_spec _ _ _ _ c Hnd Hdoc Hid Hname) as (d' & c' & Hu & Hs).
  destruct (upsert_spec id doc c Hnd Hdid) as (d2 & c2 & Hu2 & Hd2 & Hone & Hfind & Hnd').
  rewrite Hu in Hu2. injection Hu2 as Hd Hc.
  rewrite <- Hd in Hd2, Hone, Hfind. rewrite <- Hc in Hone, Hfind, Hnd'.
  exists c', [Log INFO (MsgSaved id name)], d'.
  repeat (split; [assumption|]).
  rewrite Hd2. unfold previous. destruct (find_one id c) as [old|]; simpl.
  - reflexivity.
  - rewrite (right_id_L ∅ (∪)). reflexivity.
Qed.

End SaveOne.

(* ===================================================================== *)
(** ** C1: what a write leaves of the previous version *)
(* ===================================================================== *)




(* ===================================================================== *)
(** ** C2: the id stays unique *)
(* ===================================================================== *)

(** The store as [initialize_db] leaves it and as the data model describes
    it: uniquely indexed, no two documents under one id. *)
Definition uniquely_indexed (c : collection) : Prop :=
  unique_index c = true ∧ unique_ids c.

Lemma initialize_db_establishes `{PyLibs} c :
  unique_ids c →
  ∃ c', Sync.initialize_db c = (Returns tt, c', [Log INFO MsgDatabaseInitialized])
        ∧ docs c' = docs c ∧ uniquely_indexed c'.
Proof.
  intros Hnd. unfold Sync.initialize_db, create_index.
  rewrite (bool_decide_eq_true_2 _ Hnd).
  eexists. split; [reflexivity|]. split; [reflexivity|]. split; [reflexivity|exact Hnd].
Qed.



(** So does the API's create, through its own [find_one]. *)
Lemma create_activity_unique activity c :
  unique_ids c →
  unique_ids (snd (Api.create_activity activity c))
  ∧ unique_index (snd (Api.create_activity activity c)) = unique_index c.
Proof.
  intros Hnd. unfold Api.create_activity.
  destruct (find_one (VInt (Api.a_id activity)) c) as [d|] eqn:Hf; [auto|].
  assert (fields_id (Api.dict activity) = VInt (Api.a_id activity)) as Hid
    by reflexivity.
  rewrite insert_one_fresh by (rewrite Hid; exact Hf). simpl.
  split; [|reflexivity].
  unfold unique_ids in *. simpl. rewrite fmap_app. apply NoDup_app.
  split; [assumption|]. split; [|apply NoDup_singleton].
  intros x Hx Hin. apply list_elem_of_singleton in Hin. subst x.
  revert Hx. unfold doc_id at 1. simpl. rewrite Hid. apply find_one_None, Hf.
Qed.


(** Without the index the same update does produce a duplicate: activity
    101 is rewritten under the id 102, which another document holds. *)
Lemma update_without_index_duplicates :
  let c := snd (Api.create_activity Samples.other Samples.created_store) in
  unique_ids c ∧
  doc_id <$> docs (snd (Api.update_activity 101 Samples.other c))
    = [VInt 102; VInt 102].
Proof.
  split.
  - apply create_activity_unique. unfold unique_ids. vm_compute. apply NoDup_singleton.
  - vm_compute. reflexivity.
Qed.



(* ===================================================================== *)
(** ** C7: create under a taken id *)
(* ===================================================================== *)

(** C7: when some stored document has the id of the request body, create
    answers with the HTTP error 400 and returns the collection as it
    was. *)
Theorem create_existing_id_conflict (c : collection) (activity : Api.Activity)
    (d : document) :
  d ∈ docs c → doc_id d = VInt (Api.a_id activity) →
  Api.create_activity activity c
    = (Api.HTTPException 400 "Activity with this ID already exists", c).
Proof.
  intros Hin Hid. unfold Api.create_activity.
  destruct (find_one (VInt (Api.a_id activity)) c) as [d'|] eqn:Hf; [reflexivity|].
  exfalso. apply find_one_None in Hf. apply Hf.
  rewrite <- Hid. apply list_elem_of_fmap_2, Hin.
Qed.

Lemma create_existing_id_conflict_witness :
  Api.create_activity Samples.edited Samples.synced_store
    = (Api.HTTPException 400 "Activity with this ID already exists",
       Samples.synced_store).
Proof.
  destruct (docs Samples.synced_store) as [|d rest] eqn:Hdocs;
    [discriminate|].
  apply (create_existing_id_conflict Samples.synced_store Samples.edited d).
  - rewrite Hdocs. left.
  - assert (doc_id <$> docs Samples.synced_store = [VInt 101]) as Hids
      by (vm_compute; reflexivity).
    rewrite Hdocs in Hids. injection Hids as Hd _. exact Hd.
Defined.

(* ===================================================================== *)
(** ** C4: upserting one id twice *)
(* ===================================================================== *)



(* ===================================================================== *)
(** ** C3: a record that fails *)
(* ===================================================================== *)

(** A record that fails but carries an id is logged and skipped, and the
    loop goes on with the records after it. *)
Lemma save_loop_skips `{PyLibs} activity id e rest c :
  Sync.save_activity activity c = inl e → getitem activity "id" = inr id →
  Sync.save_loop (activity :: rest) c =
    (let '(r, c', t) := Sync.save_loop rest c in
     (r, c', Log ERROR (MsgErrorSaving id e) :: t)).
Proof. intros Hs Hid. simpl. rewrite Hs, Hid. reflexivity. Qed.

(** C3 fails on a record without id: the handler's own message indexes
    [activity['id']], the [KeyError] leaves [save_activities_to_db], the
    valid record after it is never saved, and the cycle ends with the
    exception.  This holds whatever the library functions do. *)
Theorem missing_id_aborts_save `{PyLibs} :
  Sync.save_activities_to_db (VList [Samples.no_id; Samples.run]) Samples.empty_store
    = (Raises (KeyError "id"), Samples.empty_store, [])
  ∧ (∀ fuel,
       Sync.sync_activities Samples.cfg Samples.upstream_no_id (S fuel) Samples.world0
       = Some (Raises (KeyError "id"),
               Sync.mk_world Samples.empty_store (VStr "t1")
                 [ Log INFO MsgStartingSync; Log INFO MsgRefreshing;
                   Request (PostToken "id" "secret" "refresh" "refresh_token");
                   Log INFO MsgRefreshed; Log INFO (MsgFetchingPage 1);
                   Request (GetActivities 1 200 (VStr "t1")) ])).
Proof.
  split.
  - unfold Sync.save_activities_to_db, Samples.no_id. cbn [py_iter].
    apply save_loop_no_id. reflexivity.
  - intros fuel. vm_compute. reflexivity.
Qed.

(* ===================================================================== *)
(** ** C5: pagination *)
(* ===================================================================== *)

Section Pagination.
Context `{PyLibs}.
Variable cfg : config.
Variable srv : server.
Import Sync.

(** The collection after the save step. *)
Definition saved (activities : value) (c : collection) : collection :=
  snd (fst (save_activities_to_db activities c)).

(** Page [p] answers 200 with the non-empty list [recs] of records that
    carry an id. *)
Definition page_holds (token : value) (p : Z) (recs : list value) : Prop :=
  let response := srv (GetActivities p (ACTIVITIES_PER_PAGE cfg) token) in
  status_code response = 200 ∧ json response = inr (VList recs)
  ∧ recs ≠ [] ∧ Forall has_id recs.

(** Page [p] fails, or answers 200 with an empty body. *)
Definition page_ends (token : value) (p : Z) : Prop :=
  let response := srv (GetActivities p (ACTIVITIES_PER_PAGE cfg) token) in
  status_code response ≠ 200
  ∨ (status_code response = 200 ∧ ∃ v, json response = inr v ∧ truthy v = false).

Lemma pages_of_app t1 t2 : pages_of (t1 ++ t2) = pages_of t1 ++ pages_of t2.
Proof.
  induction t1 as [|[l m|[? ? ? ?|page pp b]] t1 IH]; simpl; rewrite ?IH; reflexivity.
Qed.

Lemma save_activity_no_request activity c c' t :
  save_activity activity c = inr (c', t) → pages_of t = [].
Proof.
  unfold save_activity. intros Hs.
  destruct (activity_document activity); [discriminate|]. cbn [mbind exn_bind] in Hs.
  destruct (getitem activity "id"); [discriminate|]. cbn [mbind exn_bind] in Hs.
  destruct (update_one _ _ _ _); [discriminate|]. cbn [mbind exn_bind] in Hs.
  destruct (getitem activity "name"); [discriminate|].
  inversion Hs; subst. reflexivity.
Qed.

Lemma save_loop_no_request activities : ∀ c r c' t,
  save_loop activities c = (r, c', t) → pages_of t = [].
Proof.
  induction activities as [|a rest IH]; intros c r c' t Hs; simpl in Hs.
  - inversion Hs; subst. reflexivity.
  - destruct (save_activity a c) as [e|[c1 t1]] eqn:Ha.
    + destruct (getitem a "id") as [e'|id].
      * inversion Hs; subst. reflexivity.
      * destruct (save_loop rest c) as [[r2 c2] t2] eqn:Hr.
        inversion Hs; subst. simpl. eapply IH; eauto.
    + destruct (save_loop rest c1) as [[r2 c2] t2] eqn:Hr.
      inversion Hs; subst. rewrite pages_of_app.
      rewrite (save_activity_no_request _ _ _ _ Ha). simpl. eapply IH; eauto.
Qed.

(** A page that fails is fetched as an empty list, the failure logged. *)
Lemma fetch_activities_failure token page per_page :
  status_code (srv (GetActivities page per_page token)) ≠ 200 →
  fetch_activities srv token page per_page =
    (Returns (VList []),
     [ Request (GetActivities page per_page token);
       Log ERROR (MsgErrorFetching
                    (status_code (srv (GetActivities page per_page token)))
                    (text (srv (GetActivities page per_page token)))) ]).
Proof.
  intros Hne. unfold fetch_activities.
  apply Z.eqb_neq in Hne. rewrite Hne. reflexivity.
Qed.

(** The loop from page [p] on, over the pages that hold records. *)
Lemma fetch_pages_run (pages : list (list value)) : ∀ (p : Z) (w : world) (fuel : nat),
  (∀ i recs, pages !! i = Some recs →
     page_holds (STRAVA_ACCESS_TOKEN w) (p + Z.of_nat i) recs) →
  page_ends (STRAVA_ACCESS_TOKEN w) (p + Z.of_nat (length pages)) →
  (length pages < fuel)%nat →
  ∃ w',
    fetch_pages cfg srv fuel p w = Some (Returns tt, w') ∧
    pages_of (out w') =
      pages_of (out w) ++ ((λ i, p + Z.of_nat i) <$> seq 0 (S (length pages))) ∧
    db w' = fold_left (λ c recs, saved (VList recs) c) pages (db w) ∧
    STRAVA_ACCESS_TOKEN w' = STRAVA_ACCESS_TOKEN w.
Proof.
  induction pages as [|recs rest IH]; intros p w fuel Hpages Hend Hfuel.
  - destruct fuel as [|fuel]; [simpl in Hfuel; lia|]. simpl in Hend.
    rewrite Z.add_0_r in Hend. simpl. unfold fetch_activities.
    destruct Hend as [Hne|(Hok & v & Hjson & Hfalse)].
    + apply Z.eqb_neq in Hne. rewrite Hne. simpl. eexists. split; [reflexivity|].
      simpl. rewrite !pages_of_app. simpl. rewrite ?Z.add_0_r, ?app_nil_r. auto.
    + rewrite Hok. simpl. rewrite Hjson, Hfalse. simpl. eexists. split; [reflexivity|].
      simpl. rewrite !pages_of_app. simpl. rewrite ?Z.add_0_r, ?app_nil_r. auto.
  - destruct fuel as [|fuel]; [simpl in Hfuel; lia|].
    destruct (Hpages 0%nat recs eq_refl) as (Hok & Hjson & Hne & Hids).
    simpl in Hok, Hjson. rewrite Z.add_0_r in Hok, Hjson.
    cbn [fetch_pages]. unfold fetch_activities. cbn [emit STRAVA_ACCESS_TOKEN].
    rewrite Hok. simpl Z.eqb. cbn iota. rewrite Hjson.
    assert (truthy (VList recs) = true) as Htrue
      by (destruct recs; [congruence | reflexivity]).
    rewrite Htrue. cbn [negb db emit out STRAVA_ACCESS_TOKEN].
    destruct (save_loop_total recs (db w) Hids) as (c' & t & Hsave).
    assert (save_activities_to_db (VList recs) (db w) = (Returns tt, c', t)) as Hsave'
      by exact Hsave.
    rewrite Hsave'.
    set (w3 := mk_world c' (STRAVA_ACCESS_TOKEN w) _).
    destruct (IH (p + 1) w3 fuel) as (w' & Hrun & Hpg & Hdb & Htok).
    + intros i recs' Hi. simpl. specialize (Hpages (S i) recs' Hi).
      replace (p + 1 + Z.of_nat i) with (p + Z.of_nat (S i)) by lia. exact Hpages.
    + simpl. replace (p + 1 + Z.of_nat (length rest))
        with (p + Z.of_nat (length (recs :: rest))) by (simpl; lia). exact Hend.
    + simpl in Hfuel. lia.
    + exists w'. split; [exact Hrun|]. split; [|split].
      * rewrite Hpg. subst w3. simpl out. rewrite !pages_of_app.
        rewrite (save_loop_no_request _ _ _ _ _ Hsave). simpl pages_of.
        rewrite !app_nil_r, <- !app_assoc. f_equal.
        change (length (recs :: rest)) with (S (length rest)).
        change (seq 0 (S (S (length rest)))) with (0%nat :: seq 1 (S (length rest))).
        rewrite fmap_cons. change (Z.of_nat 0) with 0. rewrite Z.add_0_r.
        cbn [app]. f_equal.
        rewrite <- seq_shift, <- list_fmap_compose.
        apply list_fmap_ext. intros _ i _. simpl. lia.
      * rewrite Hdb. subst w3. cbn [fold_left db]. f_equal.
        unfold saved. rewrite Hsave'. reflexivity.
      * rewrite Htok. reflexivity.
Qed.

End Pagination.

(** C5: the loop of a cycle asks for page 1, then for each next page; it
    saves each page that holds records, in order; it stops at the first
    page that is empty or fails, which it fetches last; and a failed page
    is fetched as an empty list with the failure logged, so that both ends
    give the same collection and the same pages asked for.  The pages that
    hold records are lists of records that carry an id, and [fuel] exceeds
    their number. *)
Theorem pagination_stops_at_first_empty_page `{PyLibs}
    (cfg : config) (srv : server) (w : Sync.world)
    (pages : list (list value)) (fuel : nat) :
  (∀ i recs, pages !! i = Some recs →
     page_holds cfg srv (Sync.STRAVA_ACCESS_TOKEN w) (1 + Z.of_nat i) recs) →
  page_ends cfg srv (Sync.STRAVA_ACCESS_TOKEN w) (1 + Z.of_nat (length pages)) →
  (length pages < fuel)%nat →
  (∃ w',
     Sync.fetch_pages cfg srv fuel 1 w = Some (Returns tt, w') ∧
     pages_of (Sync.out w') =
       pages_of (Sync.out w) ++ (Z.of_nat <$> seq 1 (S (length pages))) ∧
     Sync.db w' = fold_left (λ c recs, saved (VList recs) c) pages (Sync.db w) ∧
     Sync.STRAVA_ACCESS_TOKEN w' = Sync.STRAVA_ACCESS_TOKEN w)
  ∧
  (∀ page,
     status_code (srv (GetActivities page (ACTIVITIES_PER_PAGE cfg)
                                     (Sync.STRAVA_ACCESS_TOKEN w))) ≠ 200 →
     ∃ t, Sync.fetch_activities srv (Sync.STRAVA_ACCESS_TOKEN w) page
            (ACTIVITIES_PER_PAGE cfg) = (Returns (VList []), t)
          ∧ ∃ status body, Log ERROR (MsgErrorFetching status body) ∈ t).
Proof.
  intros Hpages Hend Hfuel. split.
  - destruct (fetch_pages_run cfg srv pages 1 w fuel Hpages Hend Hfuel)
      as (w' & Hrun & Hpg & Hdb & Htok).
    exists w'. split; [exact Hrun|]. split; [|split; assumption].
    rewrite Hpg. f_equal. rewrite <- seq_shift, <- list_fmap_compose.
    apply list_fmap_ext. intros _ i _. simpl. lia.
  - intros page Hne. eexists. split.
    + apply fetch_activities_failure, Hne.
    + eexists _, _. right. left.
Qed.

(** One page of two activities, then a page refused with a 429: both are
    saved, pages 1 and 2 are asked for, the loop returns. *)
Lemma pagination_stops_at_first_empty_page_witness :
  ∃ w',
    Sync.fetch_pages (H := RefLibs.libs) Samples.cfg Samples.upstream 2 1 Samples.world0
      = Some (Returns tt, w') ∧
    pages_of (Sync.out w') = [1; 2] ∧
    Sync.db w' = saved (H := RefLibs.libs) (VList [Samples.run; Samples.bare])
                   Samples.empty_store.
Proof.
  destruct (pagination_stops_at_first_empty_page (H := RefLibs.libs)
              Samples.cfg Samples.upstream Samples.world0
              [[Samples.run; Samples.bare]] 2) as [(w' & Hrun & Hpg & Hdb & _) _].
  - intros [|[|i]] recs Hi; simpl in Hi; try discriminate.
    injection Hi as <-. repeat split; try discriminate.
    repeat constructor; eexists; reflexivity.
  - left. simpl. discriminate.
  - simpl. lia.
  - exists w'. split; [exact Hrun|]. split; [exact Hpg | exact Hdb].
Defined.

(* ===================================================================== *)
(** ** C6: the token refresh *)
(* ===================================================================== *)

(** C6: on a 200 whose body holds an access token, the refresh returns
    with that token in place of the old one; on any other status it logs
    the error and exits: one request was sent, nothing is raised, and the
    cycle that called it ends there without asking for a page. *)
Theorem refresh_replaces_or_exits `{PyLibs} (cfg : config) (srv : server)
    (token : value) :
  let request :=
    PostToken (STRAVA_CLIENT_ID cfg) (STRAVA_CLIENT_SECRET cfg)
              (STRAVA_REFRESH_TOKEN cfg) "refresh_token" in
  let response := srv request in
  (∀ token_data new_token,
     status_code response = 200 →
     json response = inr token_data →
     getitem token_data "access_token" = inr new_token →
     Sync.refresh_access_token cfg srv token
       = (Returns tt, new_token,
          [Log INFO MsgRefreshing; Request request; Log INFO MsgRefreshed]))
  ∧
  (status_code response ≠ 200 →
     Sync.refresh_access_token cfg srv token
       = (Exits, token,
          [ Log INFO MsgRefreshing; Request request;
            Log ERROR (MsgErrorRefreshing (status_code response) (text response)) ])
     ∧ ∀ fuel w,
         Sync.STRAVA_ACCESS_TOKEN w = token →
         ∃ w', Sync.sync_activities cfg srv fuel w = Some (Exits, w')
               ∧ Sync.db w' = Sync.db w
               ∧ Sync.STRAVA_ACCESS_TOKEN w' = token
               ∧ requests_of (Sync.out w') = requests_of (Sync.out w) ++ [request]).
Proof.
  intros request response. split.
  - intros token_data new_token Hok Hjson Htok. unfold Sync.refresh_access_token.
    fold request. fold response. rewrite Hok. simpl Z.eqb. cbn iota.
    rewrite Hjson. cbn [mbind exn_bind]. rewrite Htok. reflexivity.
  - intros Hne.
    assert (Sync.refresh_access_token cfg srv token
            = (Exits, token,
               [ Log INFO MsgRefreshing; Request request;
                 Log ERROR (MsgErrorRefreshing (status_code response) (text response)) ]))
      as Hexit.
    { unfold Sync.refresh_access_token. fold request. fold response.
      apply Z.eqb_neq in Hne. rewrite Hne. reflexivity. }
    split; [exact Hexit|].
    intros fuel w Hw. unfold Sync.sync_activities. cbn [Sync.emit Sync.STRAVA_ACCESS_TOKEN].
    rewrite Hw, Hexit. eexists. split; [reflexivity|]. simpl.
    repeat split.
    assert (∀ t1 t2, requests_of (t1 ++ t2) = requests_of t1 ++ requests_of t2) as Happ.
    { induction t1 as [|[l m|r] t1 IH]; intros t2; simpl; rewrite ?IH; reflexivity. }
    rewrite !Happ. simpl. rewrite app_nil_r. reflexivity.
Qed.

(** The two branches: a token endpoint that answers, one that refuses. *)
Lemma refresh_replaces_or_exits_witness :
  Sync.refresh_access_token Samples.cfg Samples.upstream VNull
    = (Returns tt, VStr "t1",
       [ Log INFO MsgRefreshing;
         Request (PostToken "id" "secret" "refresh" "refresh_token");
         Log INFO MsgRefreshed ])
  ∧ Sync.refresh_access_token Samples.cfg Samples.upstream_401 (VStr "t0")
    = (Exits, VStr "t0",
       [ Log INFO MsgRefreshing;
         Request (PostToken "id" "secret" "refresh" "refresh_token");
         Log ERROR (MsgErrorRefreshing 401 "Unauthorized") ]).
Proof.
  split.
  - apply (proj1 (refresh_replaces_or_exits (H := RefLibs.libs)
                    Samples.cfg Samples.upstream VNull)
             (VObj [("access_token", VStr "t1")]) (VStr "t1"));
      reflexivity.
  - apply (proj2 (refresh_replaces_or_exits (H := RefLibs.libs)
                    Samples.cfg Samples.upstream_401 (VStr "t0"))).
    simpl. discriminate.
Defined.

(* ===================================================================== *)
(** ** C8: the list endpoint *)
(* ===================================================================== *)

Section Listing.
Context `{PyLibs}.
Import Api.

Lemma iso_field_lookup (k0 k : string) (f : fields) :
  jsonable <$> (iso_field k0 f !! k) = jsonable <$> (f !! k).
Proof.
  unfold iso_field. destruct (f !! k0) as [v|] eqn:Hk0; [|reflexivity].
  destruct v; try reflexivity.
  rewrite lookup_insert. destruct (decide (k0 = k)) as [<-|Hne]; [|reflexivity].
  rewrite Hk0. reflexivity.
Qed.

(** A returned document, field by field: the store's [_id] as a string,
    no [decoded_polyline] unless asked for, every other field as stored,
    timestamps as ISO-8601 strings. *)
Lemma shape_lookup (include_polyline : bool) (d : document) (k : string) :
  (jsonable <$> shape include_polyline d) !! k =
    if decide (k = "_id") then Some (VStr (str_oid (oid d)))
    else if decide (k = "decoded_polyline") then
      (if include_polyline then jsonable <$> (doc_fields d !! k) else None)
    else jsonable <$> (doc_fields d !! k).
Proof.
  assert (∀ k', (jsonable <$> iso_field "start_date_local"
                   (iso_field "start_date" (with_str_id d))) !! k'
                = if decide (k' = "_id") then Some (VStr (str_oid (oid d)))
                  else jsonable <$> (doc_fields d !! k')) as Hbase.
  { intros k'. rewrite lookup_fmap, !iso_field_lookup. unfold with_str_id.
    rewrite lookup_insert.
    destruct (decide (k' = "_id")) as [->|Hne'].
    - rewrite decide_True by reflexivity. reflexivity.
    - rewrite decide_False by congruence. reflexivity. }
  unfold shape. destruct include_polyline.
  - rewrite Hbase. destruct (decide (k = "_id")); [reflexivity|].
    destruct (decide (k = "decoded_polyline")); reflexivity.
  - rewrite lookup_fmap, lookup_delete.
    destruct (decide ("decoded_polyline" = k)) as [<-|Hne].
    + reflexivity.
    + rewrite <- lookup_fmap, Hbase. destruct (decide (k = "_id")); [reflexivity|].
      destruct (decide (k = "decoded_polyline")); [congruence|reflexivity].
Qed.

End Listing.



(* ===================================================================== *)
(** ** C9 and C10: what a record must and may hold *)
(* ===================================================================== *)

Section Records.
Context `{PyLibs}.
Import Sync.

(** The source fields read with [.get(...)] and stored as they are. *)
Definition optional_keys : list string :=
  [ "distance"; "moving_time"; "elapsed_time"; "total_elevation_gain";
    "sport_type"; "timezone"; "gear"; "average_speed"; "max_speed";
    "average_cadence"; "average_heartrate"; "max_heartrate"; "calories" ].

(** A record with its five required fields: id, name, type and the two
    timestamps, each a string its format parses. *)
Definition required (kvs : pydict) (id name : value) : Prop :=
  assoc "id" kvs = Some id ∧ assoc "name" kvs = Some name ∧
  (∃ type, assoc "type" kvs = Some type) ∧
  (∃ sd d1, assoc "start_date" kvs = Some (VStr sd)
            ∧ strptime sd "%Y-%m-%dT%H:%M:%SZ" = Some d1) ∧
  (∃ sdl d2, assoc "start_date_local" kvs = Some (VStr sdl)
             ∧ strptime sdl "%Y-%m-%dT%H:%M:%S%z" = Some d2).

(** A record with its required fields, a map that is an object (or no
    map) and a polyline that decodes (or none) is stored, field by
    field as follows. *)
Lemma save_activity_stores c kvs id name map_kvs decoded :
  unique_ids c →
  required kvs id name →
  default (VObj []) (assoc "map" kvs) = VObj map_kvs →
  decoded_of (default VNull (assoc "summary_polyline" map_kvs)) = inr decoded →
  ∃ doc c' t d,
    activity_document (VObj kvs) = inr doc ∧
    save_activity (VObj kvs) c = inr (c', t) ∧
    save_activities_to_db (VList [VObj kvs]) c = (Returns tt, c', t ++ []) ∧
    docs_with_id id c' = [d] ∧
    (∀ k x, doc !! k = Some x → doc_fields d !! k = Some x) ∧
    (∀ k, k ∈ optional_keys → doc !! k = Some (default VNull (assoc k kvs))) ∧
    doc !! "map" = Some (VObj map_kvs) ∧
    doc !! "polyline" = Some (default VNull (assoc "summary_polyline" map_kvs)) ∧
    doc !! "decoded_polyline" = Some decoded ∧
    doc !! "raw_data" = Some (VObj kvs).
Proof.
  intros Hnd (Hid & Hname & (type & Htype) & (sd & d1 & Hsd & Hd1)
              & (sdl & d2 & Hsdl & Hd2)) Hmap Hdec.
  pose proof (activity_document_complete kvs map_kvs decoded id name type sd sdl d1 d2
                Hmap Hdec Hid Hname Htype Hsd Hd1 Hsdl Hd2) as Hdoc.
  assert (getitem (VObj kvs) "id" = inr id) as Hgid by (simpl; rewrite Hid; reflexivity).
  destruct (save_activity_merges c (VObj kvs) _ id Hnd Hdoc Hgid)
    as (c' & t & d & Hs & Hone & _ & _ & Hf).
  eexists _, c', t, d. split; [exact Hdoc|]. split; [exact Hs|]. split.
  { unfold save_activities_to_db. simpl. rewrite Hs. reflexivity. }
  split; [exact Hone|]. split.
  { intros k x Hk. rewrite Hf. apply lookup_union_Some_l, Hk. }
  split.
  { intros k Hk. unfold optional_keys in Hk.
    repeat (apply elem_of_cons in Hk as [->|Hk]; [vm_compute; reflexivity|]).
    inversion Hk. }
  repeat split; vm_compute; reflexivity.
Qed.

End Records.

(** C9: a record whose polyline is null, empty or absent is stored, with a
    null [decoded_polyline], whatever [polyline.decode] would do: the
    decoder is not called.  A polyline that is a non-empty string is
    decoded: the document holds the decoder's points, or the decoder's
    exception ends the transformation. *)
Theorem empty_polyline_is_null_geometry `{PyLibs} (c : collection)
    (kvs map_kvs : pydict) (id name : value) :
  unique_ids c →
  required kvs id name →
  default (VObj []) (assoc "map" kvs) = VObj map_kvs →
  let polyline_data := default VNull (assoc "summary_polyline" map_kvs) in
  (polyline_data = VNull ∨ polyline_data = VStr "" →
     ∃ doc c' t d,
       Sync.activity_document (VObj kvs) = inr doc ∧
       doc !! "polyline" = Some polyline_data ∧
       doc !! "decoded_polyline" = Some VNull ∧
       Sync.save_activities_to_db (VList [VObj kvs]) c = (Returns tt, c', t) ∧
       docs_with_id id c' = [d] ∧
       doc_fields d !! "decoded_polyline" = Some VNull)
  ∧
  (∀ s, polyline_data = VStr s → s ≠ "" →
     match polyline_decode s with
     | inl e => Sync.activity_document (VObj kvs) = inl e
     | inr points =>
         ∃ doc, Sync.activity_document (VObj kvs) = inr doc ∧
                doc !! "decoded_polyline" =
                  Some (VList ((λ p, VList [VFloat (fst p); VFloat (snd p)]) <$> points))
     end).
Proof.
  intros Hnd Hreq Hmap polyline_data. split.
  - intros Hempty.
    assert (decoded_of polyline_data = inr VNull) as Hdec.
    { unfold decoded_of. destruct Hempty as [->| ->]; reflexivity. }
    destruct (save_activity_stores c kvs id name map_kvs VNull Hnd Hreq Hmap Hdec)
      as (doc & c' & t & d & Hdoc & _ & Hsave & Hone & Hsub & _ & _ & Hpoly & Hdp & _).
    exists doc, c', (t ++ []), d.
    repeat (split; [assumption|]). apply Hsub, Hdp.
  - intros s Hs Hne.
    assert (decoded_of polyline_data = Sync.py_polyline_decode (VStr s)) as Hdec.
    { unfold decoded_of. rewrite Hs. simpl.
      destruct s; [congruence|reflexivity]. }
    simpl in Hdec. destruct (polyline_decode s) as [e|points] eqn:Hp.
    + destruct (Sync.activity_document (VObj kvs)) as [e'|doc] eqn:Hdoc.
      * unfold Sync.activity_document in Hdoc. cbn [py_get mbind exn_bind] in Hdoc.
        rewrite Hmap in Hdoc. cbn [py_get mbind exn_bind] in Hdoc.
        fold polyline_data in Hdoc.
        fold (decoded_of polyline_data) in Hdoc. rewrite Hdec in Hdoc.
        simpl in Hdoc. congruence.
      * exfalso.
        destruct (activity_document_inv _ _ Hdoc)
          as (kvs' & mk & dec & ? & ? & ? & ? & ? & ? & ? & Hk & Hmap' & Hdec' & _).
        injection Hk as <-. rewrite Hmap in Hmap'. injection Hmap' as <-.
        fold polyline_data in Hdec'. rewrite Hdec in Hdec'. discriminate.
    + destruct (save_activity_stores c kvs id name map_kvs _ Hnd Hreq Hmap Hdec)
        as (doc & _ & _ & _ & Hdoc & _ & _ & _ & _ & _ & _ & _ & Hdp & _).
      exists doc. split; assumption.
Qed.

(** The run whose route is the empty string. *)
Lemma empty_polyline_is_null_geometry_witness :
  ∃ doc c' t d,
    Sync.activity_document (H := RefLibs.libs) Samples.run = inr doc ∧
    doc !! "polyline" = Some (VStr "") ∧
    doc !! "decoded_polyline" = Some VNull ∧
    Sync.save_activities_to_db (H := RefLibs.libs) (VList [Samples.run])
      Samples.empty_store = (Returns tt, c', t) ∧
    docs_with_id (VInt 101) c' = [d] ∧
    doc_fields d !! "decoded_polyline" = Some VNull.
Proof.
  assert (unique_ids Samples.empty_store) as Hnd by constructor.
  refine (proj1 (empty_polyline_is_null_geometry (H := RefLibs.libs)
                   Samples.empty_store Samples.run_fields
                   [("id", VStr "a101"); ("summary_polyline", VStr "")]
                   (VInt 101) (VStr "Morning Run") Hnd _ eq_refl) _).
  - repeat split; try reflexivity; eexists; try eexists; split; reflexivity.
  - right. reflexivity.
Defined.




(* ===================================================================== *)
(** * Further properties of the sync process *)
(* ===================================================================== *)

Section SaveLoopFacts.
Context `{PyLibs}.
Import Sync.

Lemma save_activity_trace activity c c' t :
  save_activity activity c = inr (c', t) →
  ∃ id name doc r,
    getitem activity "id" = inr id ∧ activity_document activity = inr doc ∧
    update_one id doc true c = inr (r, c') ∧
    t = [Log INFO (MsgSaved id name)].
Proof.
  unfold save_activity. intros Hs.
  destruct (activity_document activity) as [e|doc] eqn:Hdoc; [discriminate|].
  cbn [mbind exn_bind] in Hs.
  destruct (getitem activity "id") as [e|id] eqn:Hid; [discriminate|].
  cbn [mbind exn_bind] in Hs.
  destruct (update_one id doc true c) as [e|[r c1]] eqn:Hu; [discriminate|].
  cbn [mbind exn_bind] in Hs.
  destruct (getitem activity "name") as [e|name]; [discriminate|].
  injection Hs as <- <-. exists id, name, doc, r.
  split; [reflexivity|]. split; [reflexivity|]. split; [exact Hu | reflexivity].
Qed.

(** The log line a record leaves: its success or its error, under its id. *)
Definition logged_for (activity : value) (ev : event) : Prop :=
  ∃ id, getitem activity "id" = inr id ∧
        ((∃ name, ev = Log INFO (MsgSaved id name))
         ∨ (∃ e, ev = Log ERROR (MsgErrorSaving id e))).

Lemma save_loop_lines activities : ∀ c,
  Forall has_id activities →
  ∃ c' t, save_loop activities c = (Returns tt, c', t) ∧ Forall2 logged_for activities t.
Proof.
  induction activities as [|a rest IH]; intros c Hall; simpl.
  - eexists _, _. split; [reflexivity|constructor].
  - inversion Hall as [|? ? [id Hid] Hrest]; subst.
    destruct (save_activity a c) as [e|[c1 t1]] eqn:Ha.
    + rewrite Hid. destruct (IH c Hrest) as (c' & t & -> & Hlines).
      eexists _, _. split; [reflexivity|]. constructor; [|exact Hlines].
      exists id. split; [exact Hid|]. right. eauto.
    + destruct (IH c1 Hrest) as (c' & t & -> & Hlines).
      destruct (save_activity_trace _ _ _ _ Ha) as (id' & name & doc & r & Hid' & _ & _ & ->).
      eexists _, _. split; [reflexivity|]. simpl. constructor; [|exact Hlines].
      exists id'. split; [exact Hid'|]. left. eauto.
Qed.

(** Two lists that differ in one place agree everywhere else. *)
Lemma lookup_replace_middle {A} (pre post : list A) (x y : A) (i : nat) :
  i ≠ length pre → (pre ++ x :: post) !! i = (pre ++ y :: post) !! i.
Proof.
  revert i. induction pre as [|a pre IH]; intros [|i] Hi; simpl in *;
    try reflexivity; try congruence.
  apply IH. congruence.
Qed.

(** What an update leaves alone: every document stays at its place under
    its [_id], and a document the filter does not match is untouched. *)
Definition keeps (v : value → Prop) (c c' : collection) : Prop :=
  (length (docs c) ≤ length (docs c'))%nat ∧
  ∀ i d, docs c !! i = Some d →
    ∃ d', docs c' !! i = Some d' ∧ oid d' = oid d ∧ (¬ v (doc_id d) → d' = d).

Lemma keeps_refl v c : keeps v c c.
Proof. split; [lia|]. intros i d Hi. exists d. auto. Qed.

Lemma update_one_keeps v new upsert c r c' :
  update_one v new upsert c = inr (r, c') → keeps (eq v) c c'.
Proof.
  unfold update_one. intros Hu.
  destruct (split_first (matches_id v) (docs c)) as [[[pre old] post]|] eqn:Hs.
  - destruct (_ && _); [discriminate|]. inversion Hu; subst r c'; clear Hu.
    apply split_first_Some in Hs as (Hdocs & Hm & _). apply matches_id_true in Hm.
    unfold keeps. cbn [docs].
    split; [rewrite Hdocs, !length_app; simpl; lia|].
    intros i d Hi. rewrite Hdocs in Hi.
    destruct (decide (i = length pre)) as [->|Hne].
    + rewrite list_lookup_middle in Hi by reflexivity. inversion Hi; subst d.
      exists (apply_set new old). rewrite list_lookup_middle by reflexivity.
      split; [reflexivity|]. split; [reflexivity|]. intros Hv. congruence.
    + exists d. rewrite <- (lookup_replace_middle pre post old) by exact Hne. auto.
  - destruct upsert.
    + unfold insert_one in Hu. destruct (_ && _); [discriminate|].
      inversion Hu; subst r c'; clear Hu. unfold keeps. cbn [docs].
      split; [rewrite length_app; lia|]. intros i d Hi. exists d.
      split; [apply lookup_app_l_Some, Hi|auto].
    + inversion Hu; subst. apply keeps_refl.
Qed.

Lemma save_loop_keeps activities : ∀ c r c' t,
  save_loop activities c = (r, c', t) →
  keeps (λ x, Exists (λ a, getitem a "id" = inr x) activities) c c'.
Proof.
  induction activities as [|a rest IH]; intros c r c' t Hs; simpl in Hs.
  - inversion Hs; subst. apply keeps_refl.
  - assert (∀ c1, keeps (λ x, Exists (λ a, getitem a "id" = inr x) rest) c1 c' →
                  keeps (λ x, getitem a "id" = inr x) c c1 →
                  keeps (λ x, Exists (λ a0, getitem a0 "id" = inr x) (a :: rest)) c c')
      as Hstep.
    { intros c1 [Hl2 H2] [Hl1 H1]. split; [lia|]. intros i d Hi.
      destruct (H1 i d Hi) as (d1 & Hi1 & Ho1 & Hs1).
      destruct (H2 i d1 Hi1) as (d2 & Hi2 & Ho2 & Hs2).
      exists d2. split; [exact Hi2|]. split; [congruence|]. intros Hn.
      assert (d1 = d) as -> by (apply Hs1; intros Hx; apply Hn; left; exact Hx).
      apply Hs2. intros Hx. apply Hn. right. exact Hx. }
    destruct (save_activity a c) as [e|[c1 t1]] eqn:Ha.
    + destruct (getitem a "id") as [e'|id].
      * inversion Hs; subst. apply keeps_refl.
      * destruct (save_loop rest c) as [[r2 c2] t2] eqn:Hr.
        inversion Hs; subst. apply (Hstep c); [eapply IH; eauto | apply keeps_refl].
    + destruct (save_loop rest c1) as [[r2 c2] t2] eqn:Hr.
      inversion Hs; subst. apply (Hstep c1); [eapply IH; eauto|].
      destruct (save_activity_trace _ _ _ _ Ha) as (id & name & doc & r0 & Hid & _ & Hu & _).
      apply update_one_keeps in Hu. destruct Hu as [Hl Hk]. split; [exact Hl|].
      intros i d Hi. destruct (Hk i d Hi) as (d' & Hi' & Ho & Hsame).
      exists d'. split; [exact Hi'|]. split; [exact Ho|]. intros Hn.
      apply Hsame. intros ->. apply Hn. exact Hid.
Qed.

End SaveLoopFacts.

(** X1: when every record of the list carries an id, the save step returns
    normally and leaves exactly one log line per record, in order: the
    record's success, or its error, each under the record's id. *)
Theorem records_with_id_never_abort `{PyLibs} (activities : list value)
    (c : collection) :
  Forall has_id activities →
  ∃ c' t,
    Sync.save_activities_to_db (VList activities) c = (Returns tt, c', t) ∧
    Forall2 logged_for activities t.
Proof. intros Hall. apply save_loop_lines, Hall. Qed.

(** A run that is saved, then a record with an id and nothing else. *)
Lemma records_with_id_never_abort_witness :
  ∃ c' t,
    Sync.save_activities_to_db (H := RefLibs.libs)
      (VList [Samples.run; VObj [("id", VInt 7)]]) Samples.empty_store
      = (Returns tt, c', t) ∧
    Forall2 logged_for [Samples.run; VObj [("id", VInt 7)]] t.
Proof.
  apply (records_with_id_never_abort (H := RefLibs.libs)).
  repeat constructor; eexists; reflexivity.
Defined.

(** X2: the save step never removes or moves a document: every document
    stays at its position under its [_id], the collection does not shrink,
    and a document whose id is the id of no record of the list is left
    exactly as it was, however the step ends. *)
Theorem save_leaves_other_documents `{PyLibs} (activities : list value)
    (c c' : collection) (r : outcome unit) (t : trace) :
  Sync.save_activities_to_db (VList activities) c = (r, c', t) →
  (length (docs c) ≤ length (docs c'))%nat ∧
  ∀ i d, docs c !! i = Some d →
    ∃ d', docs c' !! i = Some d' ∧ oid d' = oid d ∧
          (Forall (λ a, getitem a "id" ≠ inr (doc_id d)) activities → d' = d).
Proof.
  intros Hs. destruct (save_loop_keeps _ _ _ _ _ Hs) as [Hlen Hkeep].
  split; [exact Hlen|]. intros i d Hi.
  destruct (Hkeep i d Hi) as (d' & Hi' & Ho & Hsame).
  exists d'. split; [exact Hi'|]. split; [exact Ho|]. intros Hall.
  apply Hsame. intros Hex. apply Exists_exists in Hex as (a & Ha & Hid).
  rewrite Forall_forall in Hall. exact (Hall a Ha Hid).
Qed.

(** Saving activity 102 into the store that holds activity 101. *)
Lemma save_leaves_other_documents_witness :
  ∃ c' t d,
    Sync.save_activities_to_db (H := RefLibs.libs) (VList [Samples.bare])
      Samples.created_store = (Returns tt, c', t) ∧
    docs Samples.created_store !! 0%nat = Some d ∧
    docs c' !! 0%nat = Some d ∧ length (docs c') = 2%nat.
Proof.
  eassert (Sync.save_activities_to_db (H := RefLibs.libs) (VList [Samples.bare])
             Samples.created_store = (Returns tt, _, _)) as Hs by reflexivity.
  eassert (docs Samples.created_store !! 0%nat = Some _) as Hd by reflexivity.
  destruct (save_leaves_other_documents (H := RefLibs.libs) _ _ _ _ _ Hs)
    as [_ Hkeep].
  destruct (Hkeep 0%nat _ Hd) as (d' & Hd' & _ & Hsame).
  eexists _, _, _. split; [exact Hs|]. split; [exact Hd|].
  split; [|reflexivity]. rewrite Hd'. f_equal. apply Hsame.
  repeat constructor. vm_compute. discriminate.
Defined.

(** X3: saving a record again, right after it was saved, changes nothing:
    the second upsert rewrites the document with the values it holds. *)
Theorem resave_changes_nothing `{PyLibs} (activity : value)
    (c c1 : collection) (t : trace) :
  unique_ids c →
  Sync.save_activity activity c = inr (c1, t) →
  Sync.save_activity activity c1 = inr (c1, t).
Proof.
  intros Hnd Hs.
  destruct (save_activity_trace _ _ _ _ Hs) as (id & name & doc & r & Hid & Hdoc & Hu & ->).
  destruct (save_activity_merges c activity doc id Hnd Hdoc Hid)
    as (c1' & t1 & d & Hs' & _ & Hfind & Hnd1 & Hf).
  rewrite Hs in Hs'. inversion Hs'; subst c1' t1; clear Hs'.
  unfold find_one in Hfind. rewrite find_split_first in Hfind.
  destruct (split_first (matches_id id) (docs c1)) as [[[pre old] post]|] eqn:Hsp;
    [|discriminate].
  injection Hfind as ->.
  assert (apply_set doc d = d) as Hsame.
  { destruct d as [o f]. unfold apply_set. simpl in *. f_equal.
    rewrite Hf, (assoc_L (∪)), (idemp_L (∪)). reflexivity. }
  pose proof (update_one_match id doc true c1 pre d post Hsp) as Hu1.
  rewrite Hsame in Hu1.
  pose proof Hsp as Hsp'. apply split_first_Some in Hsp' as (Hdocs & Hm & _).
  apply matches_id_true in Hm.
  assert (id_taken (doc_id d) (pre ++ post) = false) as Htaken.
  { apply same_id_not_taken with (d := d); [|reflexivity].
    unfold unique_ids in Hnd1. rewrite Hdocs in Hnd1. exact Hnd1. }
  rewrite Htaken, andb_false_r in Hu1.
  unfold Sync.save_activity. rewrite Hdoc. cbn [mbind exn_bind]. rewrite Hid.
  cbn [mbind exn_bind]. rewrite Hu1. cbn [mbind exn_bind].
  destruct (getitem activity "name") as [e|name'] eqn:Hname.
  - unfold Sync.save_activity in Hs. rewrite Hdoc in Hs. cbn [mbind exn_bind] in Hs.
    rewrite Hid in Hs. cbn [mbind exn_bind] in Hs. rewrite Hu in Hs.
    cbn [mbind exn_bind] in Hs. rewrite Hname in Hs. discriminate.
  - unfold Sync.save_activity in Hs. rewrite Hdoc in Hs. cbn [mbind exn_bind] in Hs.
    rewrite Hid in Hs. cbn [mbind exn_bind] in Hs. rewrite Hu in Hs.
    cbn [mbind exn_bind] in Hs. rewrite Hname in Hs.
    injection Hs as Hn. cbn [mret exn_ret snd]. rewrite <- Hdocs, Hn.
    destruct c1 as [ds n idx]. reflexivity.
Qed.

Lemma resave_changes_nothing_witness :
  ∃ c1 t,
    Sync.save_activity (H := RefLibs.libs) Samples.run Samples.created_store
      = inr (c1, t) ∧
    Sync.save_activity (H := RefLibs.libs) Samples.run c1 = inr (c1, t).
Proof.
  eassert (Sync.save_activity (H := RefLibs.libs) Samples.run Samples.created_store
           = inr (_, _)) as Hs by reflexivity.
  eexists _, _. split; [exact Hs|].
  apply (resave_changes_nothing (H := RefLibs.libs) _ Samples.created_store); [|exact Hs].
  unfold unique_ids. vm_compute. apply NoDup_singleton.
Defined.

(** X4: a record with an id whose [start_date] its format does not parse
    is not stored: the collection stays as it is, the [ValueError] is
    logged under the record's id, and the save step returns. *)
Theorem unparseable_start_date_is_skipped `{PyLibs} (c : collection)
    (kvs map_kvs : pydict) (decoded id name type : value) (sd : string) :
  default (VObj []) (assoc "map" kvs) = VObj map_kvs →
  decoded_of (default VNull (assoc "summary_polyline" map_kvs)) = inr decoded →
  assoc "id" kvs = Some id → assoc "name" kvs = Some name →
  assoc "type" kvs = Some type →
  assoc "start_date" kvs = Some (VStr sd) →
  strptime sd "%Y-%m-%dT%H:%M:%SZ" = None →
  Sync.save_activities_to_db (VList [VObj kvs]) c
    = (Returns tt, c, [Log ERROR (MsgErrorSaving id ValueError)]).
Proof.
  intros Hmap Hdec Hid Hname Htype Hsd Hparse.
  assert (Sync.activity_document (VObj kvs) = inl ValueError) as Hdoc.
  { unfold Sync.activity_document. cbn [py_get mbind exn_bind]. rewrite Hmap.
    cbn [py_get mbind exn_bind].
    fold (decoded_of (default VNull (assoc "summary_polyline" map_kvs))).
    rewrite Hdec. cbn [getitem mbind exn_bind].
    rewrite Hid, Hname, Htype, Hsd. cbn [Sync.py_strptime mbind exn_bind].
    rewrite Hparse. reflexivity. }
  unfold Sync.save_activities_to_db. cbn [py_iter Sync.save_loop].
  unfold Sync.save_activity. rewrite Hdoc. cbn [mbind exn_bind getitem].
  rewrite Hid. reflexivity.
Qed.

Lemma unparseable_start_date_is_skipped_witness :
  Sync.save_activities_to_db (H := RefLibs.libs)
    (VList [VObj [ ("id", VInt 9); ("name", VStr "Swim"); ("type", VStr "Swim");
                   ("start_date", VStr "yesterday") ]])
    Samples.synced_store
  = (Returns tt, Samples.synced_store,
     [Log ERROR (MsgErrorSaving (VInt 9) ValueError)]).
Proof.
  apply (unparseable_start_date_is_skipped (H := RefLibs.libs) Samples.synced_store
           _ [] VNull (VInt 9) (VStr "Swim") (VStr "Swim") "yesterday");
    reflexivity.
Defined.

Section CycleFacts.
Context `{PyLibs}.
Variable cfg : config.
Variable srv : server.
Import Sync.







End CycleFacts.

(** X5: a 200 from the token endpoint whose body is no JSON, or holds no
    [access_token], makes the refresh raise; the token stays as it was, and
    the cycle that called it ends with the exception before it asks for a
    page. *)
Theorem refresh_without_token_raises `{PyLibs} (cfg : config) (srv : server)
    (token : value) (e : exn) :
  let request :=
    PostToken (STRAVA_CLIENT_ID cfg) (STRAVA_CLIENT_SECRET cfg)
              (STRAVA_REFRESH_TOKEN cfg) "refresh_token" in
  status_code (srv request) = 200 →
  (json (srv request) = inl e
   ∨ ∃ token_data, json (srv request) = inr token_data
                   ∧ getitem token_data "access_token" = inl e) →
  Sync.refresh_access_token cfg srv token
    = (Raises e, token, [Log INFO MsgRefreshing; Request request])
  ∧ ∀ fuel w,
      Sync.STRAVA_ACCESS_TOKEN w = token →
      ∃ w', Sync.sync_activities cfg srv fuel w = Some (Raises e, w')
            ∧ Sync.db w' = Sync.db w
            ∧ Sync.STRAVA_ACCESS_TOKEN w' = token
            ∧ pages_of (Sync.out w') = pages_of (Sync.out w).
Proof.
  intros request Hok Hbody.
  assert (Sync.refresh_access_token cfg srv token
          = (Raises e, token, [Log INFO MsgRefreshing; Request request])) as Href.
  { unfold Sync.refresh_access_token. fold request. rewrite Hok. simpl Z.eqb. cbn iota.
    destruct Hbody as [->|(td & -> & Htd)]; cbn [mbind exn_bind]; [reflexivity|].
    rewrite Htd. reflexivity. }
  split; [exact Href|]. intros fuel w Hw.
  unfold Sync.sync_activities. cbn [Sync.emit Sync.STRAVA_ACCESS_TOKEN].
  rewrite Hw, Href. eexists. split; [reflexivity|]. cbn [Sync.db Sync.STRAVA_ACCESS_TOKEN Sync.out].
  split; [reflexivity|]. split; [reflexivity|].
  cbn [Sync.emit Sync.out]. repeat rewrite pages_of_app. simpl.
  repeat rewrite app_nil_r. reflexivity.
Qed.

Lemma refresh_without_token_raises_witness :
  Sync.refresh_access_token Samples.cfg
    (λ _, Samples.ok (VObj [("token_type", VStr "Bearer")])) (VStr "t0")
  = (Raises (KeyError "access_token"), VStr "t0",
     [ Log INFO MsgRefreshing;
       Request (PostToken "id" "secret" "refresh" "refresh_token") ]).
Proof.
  apply (refresh_without_token_raises (H := RefLibs.libs) Samples.cfg
           (λ _, Samples.ok (VObj [("token_type", VStr "Bearer")])) (VStr "t0")
           (KeyError "access_token")).
  - reflexivity.
  - right. eexists. split; reflexivity.
Defined.



(** X7: the loop has no page limit of its own: when every page from [p] on
    answers with records, no amount of fuel lets it return. *)
Theorem pagination_has_no_page_limit `{PyLibs} (cfg : config) (srv : server)
    (fuel : nat) : ∀ (p : Z) (w : Sync.world),
  (∀ q, p ≤ q → ∃ recs, page_holds cfg srv (Sync.STRAVA_ACCESS_TOKEN w) q recs) →
  Sync.fetch_pages cfg srv fuel p w = None.
Proof.
  induction fuel as [|fuel IH]; intros p w Hall; [reflexivity|].
  destruct (Hall p (Z.le_refl p)) as (recs & Hok & Hjson & Hne & Hids).
  cbn [Sync.fetch_pages]. unfold Sync.fetch_activities.
  cbn [Sync.emit Sync.STRAVA_ACCESS_TOKEN]. rewrite Hok. simpl Z.eqb. cbn iota.
  rewrite Hjson.
  assert (truthy (VList recs) = true) as -> by (destruct recs; [congruence|reflexivity]).
  cbn [negb Sync.db Sync.emit Sync.out Sync.STRAVA_ACCESS_TOKEN].
  destruct (save_loop_total recs (Sync.db w) Hids) as (c' & t & Hsave).
  assert (Sync.save_activities_to_db (VList recs) (Sync.db w) = (Returns tt, c', t))
    as -> by exact Hsave.
  apply IH. intros q Hq. cbn [Sync.STRAVA_ACCESS_TOKEN]. apply Hall. lia.
Qed.

Lemma pagination_has_no_page_limit_witness :
  Sync.fetch_pages (H := RefLibs.libs) Samples.cfg
    (λ _, Samples.ok (VList [Samples.run])) 50 1 Samples.world0 = None.
Proof.
  apply (pagination_has_no_page_limit (H := RefLibs.libs)).
  intros q _. exists [Samples.run].
  repeat split; try discriminate. repeat constructor. eexists. reflexivity.
Defined.

(** X8: a 200 whose body is a non-empty JSON object, not a list, ends the
    save step and the cycle with a [TypeError]: the loop runs over the
    object's keys, and the handler indexes a string by ["id"].  Nothing is
    stored or logged for it. *)
Theorem object_body_aborts `{PyLibs} (cfg : config) (srv : server)
    (kvs : pydict) (p : Z) (w : Sync.world) (fuel : nat) :
  kvs ≠ [] →
  status_code (srv (GetActivities p (ACTIVITIES_PER_PAGE cfg)
                                  (Sync.STRAVA_ACCESS_TOKEN w))) = 200 →
  json (srv (GetActivities p (ACTIVITIES_PER_PAGE cfg)
                          (Sync.STRAVA_ACCESS_TOKEN w))) = inr (VObj kvs) →
  (∀ c, Sync.save_activities_to_db (VObj kvs) c = (Raises TypeError, c, []))
  ∧ ∃ w', Sync.fetch_pages cfg srv (S fuel) p w = Some (Raises TypeError, w')
          ∧ Sync.db w' = Sync.db w.
Proof.
  intros Hne Hok Hjson.
  assert (∀ c, Sync.save_activities_to_db (VObj kvs) c = (Raises TypeError, c, []))
    as Hsave.
  { intros c. destruct kvs as [|[k v] kvs]; [congruence|]. reflexivity. }
  split; [exact Hsave|].
  cbn [Sync.fetch_pages]. unfold Sync.fetch_activities.
  cbn [Sync.emit Sync.STRAVA_ACCESS_TOKEN]. rewrite Hok. simpl Z.eqb. cbn iota.
  rewrite Hjson.
  assert (truthy (VObj kvs) = true) as -> by (destruct kvs; [congruence|reflexivity]).
  cbn [negb Sync.db Sync.emit Sync.out Sync.STRAVA_ACCESS_TOKEN].
  rewrite Hsave. eexists. split; reflexivity.
Qed.

Lemma object_body_aborts_witness :
  ∃ w',
    Sync.fetch_pages (H := RefLibs.libs) Samples.cfg
      (λ _, Samples.ok (VObj [("message", VStr "Rate Limit Exceeded")]))
      1 1 Samples.world0
    = Some (Raises TypeError, w')
    ∧ Sync.db w' = Samples.empty_store.
Proof.
  refine (proj2 (object_body_aborts (H := RefLibs.libs) Samples.cfg
                   (λ _, Samples.ok (VObj [("message", VStr "Rate Limit Exceeded")]))
                   [("message", VStr "Rate Limit Exceeded")] 1 Samples.world0 0
                   _ eq_refl eq_refl)).
  discriminate.
Defined.

(* ===================================================================== *)
(** * Further properties of the HTTP API *)
(* ===================================================================== *)

Section ApiFacts.
Implicit Types (c : collection) (d : document) (activity : Api.Activity).

Lemma find_one_None_iff v c : find_one v c = None ↔ v ∉ doc_id <$> docs c.
Proof.
  split; [apply find_one_None|]. intros Hnot.
  destruct (find_one v c) as [d|] eqn:Hf; [|reflexivity].
  apply find_one_Some in Hf as [Hin Hid]. exfalso. apply Hnot.
  rewrite <- Hid. apply list_elem_of_fmap_2, Hin.
Qed.

Lemma split_first_absent v c :
  v ∉ doc_id <$> docs c → split_first (matches_id v) (docs c) = None.
Proof.
  intros Hnot. apply find_one_None_iff in Hnot. unfold find_one in Hnot.
  rewrite find_split_first in Hnot.
  destruct (split_first _ _) as [[[? ?] ?]|]; [discriminate|reflexivity].
Qed.

Lemma dict_id activity : Api.dict activity !! "id" = Some (VInt (Api.a_id activity)).
Proof. vm_compute. reflexivity. Qed.



(** A document of the store, found by its id, with the rest around it. *)
Lemma split_first_present v c :
  v ∈ doc_id <$> docs c →
  ∃ pre d post,
    split_first (matches_id v) (docs c) = Some (pre, d, post) ∧
    docs c = pre ++ d :: post ∧ doc_id d = v ∧
    Forall (λ x, matches_id v x = false) pre.
Proof.
  intros Hin.
  destruct (split_first (matches_id v) (docs c)) as [[[pre d] post]|] eqn:Hs.
  - pose proof Hs as Hs'. apply split_first_Some in Hs' as (Hdocs & Hm & Hpre).
    apply matches_id_true in Hm. exists pre, d, post. auto.
  - exfalso. apply split_first_None in Hs.
    exact (no_match_not_taken _ _ Hs Hin).
Qed.


Lemma get_activity_absent c activity_id :
  VInt activity_id ∉ doc_id <$> docs c →
  Api.get_activity activity_id c = Api.HTTPException 404 "Activity not found".
Proof.
  intros Hnot. apply find_one_None_iff in Hnot.
  unfold Api.get_activity. rewrite Hnot. reflexivity.
Qed.

Lemma delete_activity_absent c activity_id :
  VInt activity_id ∉ doc_id <$> docs c →
  Api.delete_activity activity_id c
    = (Api.HTTPException 404 "Activity not found", c).
Proof.
  intros Hnot. unfold Api.delete_activity, delete_one.
  rewrite (split_first_absent _ _ Hnot). reflexivity.
Qed.

Lemma delete_activity_present c activity_id :
  VInt activity_id ∈ doc_id <$> docs c →
  ∃ pre d post,
    docs c = pre ++ d :: post ∧ doc_id d = VInt activity_id ∧
    (VInt activity_id ∉ doc_id <$> pre) ∧
    Api.delete_activity activity_id c
      = (Api.Ok tt, mk_collection (pre ++ post) (next_oid c) (unique_index c)).
Proof.
  intros Hin.
  destruct (split_first_present _ _ Hin) as (pre & d & post & Hs & Hdocs & Hid & Hpre).
  exists pre, d, post. split; [exact Hdocs|]. split; [exact Hid|].
  split; [apply no_match_not_taken, Hpre|].
  unfold Api.delete_activity, delete_one. rewrite Hs. reflexivity.
Qed.

End ApiFacts.







(** X13: with the unique index in place, an update whose body carries the
    id of another stored document is refused by the store: the handler
    catches nothing, the request ends in an unhandled [DuplicateKeyError],
    and the collection is as it was. *)
Theorem update_onto_taken_id_fails (c : collection) (activity_id : Z)
    (activity : Api.Activity) :
  unique_index c = true →
  VInt activity_id ∈ doc_id <$> docs c →
  Api.a_id activity ≠ activity_id →
  VInt (Api.a_id activity) ∈ doc_id <$> docs c →
  Api.update_activity activity_id activity c = (Api.Unhandled DuplicateKeyError, c).
Proof.
  intros Hidx Hin Hne Htaken.
  destruct (split_first_present _ _ Hin) as (pre & old & post & Hs & Hdocs & Hid & _).
  assert (doc_id (apply_set (Api.dict activity) old) = VInt (Api.a_id activity)) as Hid'.
  { unfold doc_id. cbn [apply_set doc_fields]. apply fields_id_union, dict_id. }
  unfold Api.update_activity. rewrite (update_one_match _ _ _ _ _ _ _ Hs), Hid', Hidx.
  assert (id_taken (VInt (Api.a_id activity)) (pre ++ post) = true) as ->; [|reflexivity].
  apply id_taken_true. rewrite Hdocs, fmap_app, fmap_cons in Htaken. rewrite fmap_app.
  apply elem_of_app in Htaken as [Hx|Hx]; [apply elem_of_app; left; exact Hx|].
  apply elem_of_cons in Hx as [Hx|Hx]; [congruence|].
  apply elem_of_app. right. exact Hx.
Qed.

(** The indexed store of the activities 101 and 102; 101 sent with the
    id 102. *)
Lemma update_onto_taken_id_fails_witness :
  let c := mk_collection
             (docs (snd (Api.create_activity Samples.other Samples.created_store)))
             2 true in
  Api.update_activity 101 Samples.other c = (Api.Unhandled DuplicateKeyError, c).
Proof.
  intros c.
  assert (doc_id <$> docs c = [VInt 101; VInt 102]) as Hids by (vm_compute; reflexivity).
  apply update_onto_taken_id_fails.
  - reflexivity.
  - rewrite Hids. left.
  - discriminate.
  - rewrite Hids. right. left.
Defined.




(** X16: in a store with distinct ids, after a delete that succeeded the
    id is gone: a get and a second delete of it answer 404; the store has
    one document less, its ids are still distinct and its index is as
    before. *)
Theorem delete_then_gone (c : collection) (activity_id : Z) :
  unique_ids c →
  VInt activity_id ∈ doc_id <$> docs c →
  ∃ c',
    Api.delete_activity activity_id c = (Api.Ok tt, c') ∧
    Api.get_activity activity_id c' = Api.HTTPException 404 "Activity not found" ∧
    Api.delete_activity activity_id c'
      = (Api.HTTPException 404 "Activity not found", c') ∧
    S (length (docs c')) = length (docs c) ∧
    unique_ids c' ∧ unique_index c' = unique_index c.
Proof.
  intros Hnd Hin.
  destruct (delete_activity_present c activity_id Hin)
    as (pre & d & post & Hdocs & Hid & _ & Hdel).
  unfold unique_ids in Hnd. rewrite Hdocs in Hnd.
  pose proof (unique_others_differ _ _ _ Hnd) as Hoth. rewrite Hid in Hoth.
  assert (VInt activity_id ∉ doc_id <$> (pre ++ post)) as Hgone
    by (apply no_match_not_taken, Hoth).
  eexists. split; [exact Hdel|]. split; [|split; [|split; [|split]]].
  - apply get_activity_absent. exact Hgone.
  - apply delete_activity_absent. exact Hgone.
  - cbn [docs]. rewrite Hdocs, !length_app. simpl. lia.
  - unfold unique_ids. cbn [docs]. rewrite fmap_app, fmap_cons in Hnd.
    rewrite fmap_app. apply NoDup_app in Hnd as (Hpre & Hdisj & Hpost).
    apply NoDup_cons in Hpost as [_ Hpost]. apply NoDup_app.
    split; [exact Hpre|]. split; [|exact Hpost].
    intros x Hx Hy. apply (Hdisj x Hx). right. exact Hy.
  - reflexivity.
Qed.

Lemma delete_then_gone_witness :
  ∃ c',
    Api.delete_activity 101 Samples.created_store = (Api.Ok tt, c') ∧
    Api.get_activity 101 c' = Api.HTTPException 404 "Activity not found" ∧
    docs c' = [].
Proof.
  assert (doc_id <$> docs Samples.created_store = [VInt 101]) as Hids
    by (vm_compute; reflexivity).
  destruct (delete_then_gone Samples.created_store 101)
    as (c' & Hdel & Hget & _ & Hlen & _).
  - unfold unique_ids. rewrite Hids. apply NoDup_singleton.
  - rewrite Hids. left.
  - exists c'. split; [exact Hdel|]. split; [exact Hget|].
    assert (length (docs Samples.created_store) = 1%nat) as Hone
      by (vm_compute; reflexivity).
    destruct (docs c'); [reflexivity|]. simpl in Hlen. lia.
Defined.





(** X19: a timestamp the store holds as a [datetime], as the sync writes
    [start_date] and [start_date_local], comes back from the list endpoint
    as its ISO-8601 string, for every document listed. *)
Theorem listed_timestamps_are_iso `{PyLibs} (c : collection) (i : nat)
    (d : document) (k : string) (stamp : datetime) (include_polyline : bool) :
  docs c !! i = Some d →
  doc_fields d !! k = Some (VDate stamp) →
  k ≠ "_id" → k ≠ "decoded_polyline" →
  ∃ body r,
    Api.get_activities None 0 include_polyline c = Api.Ok body ∧
    body !! i = Some r ∧ r !! k = Some (VStr (isoformat stamp)).
Proof.
  intros Hi Hk Hne1 Hne2.
  exists (fmap (M := list) (fmap (M := gmap string) Api.jsonable)
            (Api.shape include_polyline <$> docs c)),
         (Api.jsonable <$> Api.shape include_polyline d).
  split; [reflexivity|].
  split; [rewrite !list_lookup_fmap, Hi; reflexivity|].
  rewrite shape_lookup.
  destruct (decide (k = "_id")); [contradiction|].
  destruct (decide (k = "decoded_polyline")); [contradiction|].
  rewrite Hk. reflexivity.
Qed.

(** The run the sync stored, listed. *)
Lemma listed_timestamps_are_iso_witness :
  ∃ body r,
    Api.get_activities (H := RefLibs.libs) None 0 false Samples.synced_store
      = Api.Ok body ∧
    body !! 0%nat = Some r ∧
    r !! "start_date" = Some (VStr "2024-03-01T10:20:30").
Proof.
  eassert (docs Samples.synced_store !! 0%nat = Some _) as Hd by reflexivity.
  refine (listed_timestamps_are_iso (H := RefLibs.libs) Samples.synced_store 0 _
            "start_date" (mk_datetime 2024 3 1 10 20 30 None) false Hd _ _ _).
  - vm_compute. reflexivity.
  - discriminate.
  - discriminate.
Defined.

(** X20: [initialize_db] on a store with distinct ids creates the index and
    keeps the documents; run again on its own result it changes nothing;
    on a store that holds one id twice it raises and leaves the store as it
    is. *)
Theorem initialize_db_idempotent `{PyLibs} (c : collection) :
  (unique_ids c →
   ∃ c', Sync.initialize_db c = (Returns tt, c', [Log INFO MsgDatabaseInitialized])
         ∧ docs c' = docs c ∧ next_oid c' = next_oid c ∧ uniquely_indexed c'
         ∧ Sync.initialize_db c' = (Returns tt, c', [Log INFO MsgDatabaseInitialized]))
  ∧ (¬ unique_ids c → Sync.initialize_db c = (Raises DuplicateKeyError, c, [])).
Proof.
  unfold Sync.initialize_db, create_index. split.
  - intros Hnd. rewrite (bool_decide_eq_true_2 _ Hnd). eexists.
    split; [reflexivity|]. cbn [docs next_oid unique_index].
    rewrite (bool_decide_eq_true_2 _ Hnd).
    repeat split; try reflexivity. exact Hnd.
  - intros Hdup. rewrite (bool_decide_eq_false_2 _ Hdup). reflexivity.
Qed.



(** X22: however an update ends, it adds and removes no document, keeps
    every document at its position under its [_id], and leaves the
    documents that are not under the path's id exactly as they were. *)
Theorem update_keeps_other_documents (c : collection) (activity_id : Z)
    (activity : Api.Activity) :
  let c' := snd (Api.update_activity activity_id activity c) in
  length (docs c') = length (docs c) ∧
  ∀ i d, docs c !! i = Some d →
    ∃ d', docs c' !! i = Some d' ∧ oid d' = oid d ∧
          (doc_id d ≠ VInt activity_id → d' = d).
Proof.
  intros c'. subst c'. unfold Api.update_activity.
  destruct (update_one (VInt activity_id) (Api.dict activity) false c)
    as [e|[r c1]] eqn:Hu.
  - cbn [snd]. split; [reflexivity|]. intros i d Hi. exists d. auto.
  - assert (snd (let (o, c') := (r, c1) in
                 match o with
                 | Some d => (Api.Ok (Api.with_str_id d), c')
                 | None => (Api.HTTPException 404 "Activity not found", c')
                 end) = c1) as -> by (destruct r; reflexivity).
    destruct (update_one_keeps _ _ _ _ _ _ Hu) as [_ Hkeep]. split.
    + unfold update_one in Hu.
      destruct (split_first _ _) as [[[pre old] post]|] eqn:Hs.
      * destruct (_ && _); [discriminate|]. injection Hu as _ <-.
        apply split_first_Some in Hs as (Hdocs & _ & _).
        cbn [docs]. rewrite Hdocs, !length_app. reflexivity.
      * injection Hu as _ <-. reflexivity.
    + intros i d Hi. destruct (Hkeep i d Hi) as (d' & Hi' & Ho & Hsame).
      exists d'. split; [exact Hi'|]. split; [exact Ho|].
      intros Hne. apply Hsame. congruence.
Qed.

(* ===================================================================== *)
(** * A second pass over the same records *)
(* ===================================================================== *)

Section Resync.
Context `{PyLibs}.
Import Sync.

(** What a record writes: its document, under its id. *)
Definition written (a : value) : option (value * fields) :=
  match activity_document a, getitem a "id" with
  | inr doc, inr v => Some (v, doc)
  | _, _ => None
  end.

(** The effect of one record on one stored document of a store that holds
    the record's id. *)
Definition step (a : value) (d : document) : document :=
  match written a with
  | Some (v, doc) => if matches_id v d then apply_set doc d else d
  | None => d
  end.

(** The effect of a list of records, in order. *)
Definition overlay (l : list value) (d : document) : document :=
  fold_left (λ d a, step a d) l d.

(** The document of the last record of the list that writes under [v]. *)
Fixpoint last_doc (l : list value) (v : value) : option fields :=
  match l with
  | [] => None
  | a :: rest =>
      match last_doc rest v with
      | Some doc => Some doc
      | None =>
          match written a with
          | Some (v', doc) => if bool_decide (v' = v) then Some doc else None
          | None => None
          end
      end
  end.

Lemma written_Some a v doc :
  written a = Some (v, doc) ↔
  activity_document a = inr doc ∧ getitem a "id" = inr v.
Proof.
  unfold written.
  destruct (activity_document a) as [e|doc'], (getitem a "id") as [e'|v'];
    split; try (intros [? ?]); try discriminate; try congruence.
  intros Hs. inversion Hs; subst. auto.
Qed.

Lemma written_None a : written a = None → ∃ e, activity_document a = inl e.
Proof.
  unfold written. destruct (activity_document a) as [e|doc] eqn:Hdoc; [eauto|].
  destruct (activity_document_id _ _ Hdoc) as (id & name & -> & _). discriminate.
Qed.

Lemma written_id a v doc : written a = Some (v, doc) → doc !! "id" = Some v.
Proof.
  intros Hw. apply written_Some in Hw as [Hdoc Hid].
  destruct (activity_document_id _ _ Hdoc) as (id & name & Hid' & _ & Hdid).
  congruence.
Qed.

Lemma step_id a d : doc_id (step a d) = doc_id d.
Proof.
  unfold step. destruct (written a) as [[v doc]|] eqn:Hw; [|reflexivity].
  destruct (matches_id v d) eqn:Hm; [|reflexivity].
  apply matches_id_true in Hm. unfold doc_id. cbn [apply_set doc_fields].
  rewrite (fields_id_union _ _ _ (written_id _ _ _ Hw)). symmetry. exact Hm.
Qed.

Lemma step_oid a d : oid (step a d) = oid d.
Proof.
  unfold step. destruct (written a) as [[v doc]|]; [|reflexivity].
  destruct (matches_id v d); reflexivity.
Qed.

Lemma last_doc_dom l v doc : last_doc l v = Some doc → dom doc = list_to_set sync_keys.
Proof.
  induction l as [|a rest IH]; simpl; [discriminate|].
  destruct (last_doc rest v) as [doc'|]; [intros Hs; inversion Hs; subst; auto|].
  destruct (written a) as [[v' doc']|] eqn:Hw; [|discriminate].
  destruct (bool_decide (v' = v)); [|discriminate].
  intros Hs. inversion Hs; subst. apply written_Some in Hw as [Hdoc _].
  exact (activity_document_dom _ _ Hdoc).
Qed.

(** A document after the whole list: its [_id] and id are as before, and
    the last record that writes under its id, if any, is laid over it. *)
Lemma overlay_spec l : ∀ d,
  oid (overlay l d) = oid d ∧ doc_id (overlay l d) = doc_id d ∧
  doc_fields (overlay l d) =
    match last_doc l (doc_id d) with
    | Some doc => doc ∪ doc_fields d
    | None => doc_fields d
    end.
Proof.
  induction l as [|a rest IH]; intros d; [auto|].
  change (overlay (a :: rest) d) with (overlay rest (step a d)).
  destruct (IH (step a d)) as (Ho & Hi & Hf).
  rewrite Ho, Hi, Hf, step_oid, step_id. split; [reflexivity|]. split; [reflexivity|].
  cbn [last_doc]. unfold step.
  destruct (written a) as [[v doc]|] eqn:Hw.
  - unfold matches_id. destruct (decide (doc_id d = v)) as [Heq|Hne].
    + rewrite (bool_decide_eq_true_2 _ Heq).
      assert (bool_decide (v = doc_id d) = true) as ->
        by (apply bool_decide_eq_true; congruence).
      cbn [apply_set doc_fields].
      destruct (last_doc rest (doc_id d)) as [doc'|] eqn:Hl; [|reflexivity].
      rewrite (assoc_L (∪)). f_equal. apply union_covers.
      apply written_Some in Hw as [Hdoc _].
      rewrite (activity_document_dom _ _ Hdoc), (last_doc_dom _ _ _ Hl). reflexivity.
    + rewrite (bool_decide_eq_false_2 _ Hne).
      assert (bool_decide (v = doc_id d) = false) as ->
        by (apply bool_decide_eq_false; congruence).
      destruct (last_doc rest (doc_id d)); reflexivity.
  - destruct (last_doc rest (doc_id d)); reflexivity.
Qed.

Lemma fmap_fixed {A} (f : A → A) (l : list A) :
  Forall (λ x, f x = x) l → f <$> l = l.
Proof. induction 1 as [|x l Hx _ IH]; simpl; [reflexivity|]. rewrite Hx. f_equal. exact IH. Qed.

(** In a store with distinct ids that holds [v], the upsert under [v] is
    the [$set] applied to the documents of that id. *)
Lemma update_one_as_map v new c :
  unique_ids c → v ∈ doc_id <$> docs c → new !! "id" = Some v →
  ∃ d',
    update_one v new true c
    = inr (Some d',
           mk_collection ((λ d, if matches_id v d then apply_set new d else d) <$> docs c)
                         (next_oid c) (unique_index c)).
Proof.
  intros Hnd Hin Hid.
  destruct (split_first_present _ _ Hin) as (pre & d & post & Hs & Hdocs & Hd & Hpre).
  unfold unique_ids in Hnd. rewrite Hdocs in Hnd.
  assert (doc_id (apply_set new d) = doc_id d) as Hsame.
  { unfold doc_id at 1. cbn [apply_set doc_fields].
    rewrite (fields_id_union _ _ _ Hid). congruence. }
  rewrite (update_one_match _ _ _ _ _ _ _ Hs).
  rewrite (same_id_not_taken pre d post _ Hnd Hsame), andb_false_r.
  eexists. do 3 f_equal. rewrite Hdocs, fmap_app, fmap_cons.
  pose proof (unique_others_differ _ _ _ Hnd) as Hoth. rewrite Hd in Hoth.
  apply Forall_app in Hoth as [_ Hpost].
  assert (matches_id v d = true) as -> by (apply matches_id_true, Hd).
  rewrite !fmap_fixed; [reflexivity| |].
  - eapply Forall_impl; [exact Hpost|]. intros x Hx. simpl in Hx. rewrite Hx. reflexivity.
  - eapply Forall_impl; [exact Hpre|]. intros x Hx. simpl in Hx. rewrite Hx. reflexivity.
Qed.

(** A pass over records whose ids the store already holds: each document
    is overlaid, none is added. *)
Lemma save_loop_overlay l : ∀ c,
  unique_ids c → Forall has_id l →
  (∀ a v doc, a ∈ l → written a = Some (v, doc) → v ∈ doc_id <$> docs c) →
  ∃ t, save_loop l c
       = (Returns tt,
          mk_collection (overlay l <$> docs c) (next_oid c) (unique_index c), t).
Proof.
  induction l as [|a rest IH]; intros c Hnd Hids Hheld.
  - exists []. simpl. rewrite list_fmap_id. destruct c; reflexivity.
  - inversion Hids as [|? ? [id Hid] Hrest]; subst. cbn [save_loop].
    destruct (written a) as [[v doc]|] eqn:Hw.
    + pose proof Hw as Hw'. apply written_Some in Hw' as [Hdoc Hv].
      destruct (activity_document_id _ _ Hdoc) as (id' & name & _ & Hname & _).
      destruct (update_one_as_map v doc c Hnd) as (d' & Hu).
      { eapply Hheld; [left | exact Hw]. }
      { exact (written_id _ _ _ Hw). }
      set (c1 := mk_collection _ _ _) in Hu.
      assert (save_activity a c = inr (c1, [Log INFO (MsgSaved v name)])) as Hs.
      { unfold save_activity. rewrite Hdoc. cbn [mbind exn_bind]. rewrite Hv.
        cbn [mbind exn_bind]. rewrite Hu. cbn [mbind exn_bind]. rewrite Hname.
        reflexivity. }
      rewrite Hs.
      assert (docs c1 = step a <$> docs c) as Hdocs1.
      { subst c1. cbn [docs]. apply list_fmap_ext. intros _ d _.
        unfold step. rewrite Hw. reflexivity. }
      destruct (IH c1) as (t & Ht).
      * eapply save_activity_unique; eauto.
      * exact Hrest.
      * intros a' v' doc' Ha' Hw'. rewrite Hdocs1, <- list_fmap_compose.
        assert (doc_id <$> docs c = (doc_id ∘ step a) <$> docs c) as <-.
        { apply list_fmap_ext. intros _ d _. simpl. rewrite step_id. reflexivity. }
        eapply Hheld; [right; exact Ha' | exact Hw'].
      * rewrite Ht. eexists. do 2 f_equal. rewrite Hdocs1, <- list_fmap_compose.
        subst c1. cbn [next_oid unique_index]. reflexivity.
    + destruct (written_None _ Hw) as [e He].
      assert (save_activity a c = inl e) as ->
        by (unfold save_activity; rewrite He; reflexivity).
      rewrite Hid. destruct (IH c Hnd Hrest) as (t & ->).
      * intros a' v' doc' Ha' Hw'. eapply Hheld; [right; exact Ha' | exact Hw'].
      * eexists. do 2 f_equal.
        assert (overlay (a :: rest) <$> docs c = overlay rest <$> docs c) as ->;
          [|reflexivity].
        apply list_fmap_ext. intros _ d _.
        change (overlay (a :: rest) d) with (overlay rest (step a d)).
        unfold step. rewrite Hw. reflexivity.
Qed.

(** What a pass leaves alone, by the ids it writes under. *)
Lemma save_loop_keeps_written l : ∀ c r c' t,
  save_loop l c = (r, c', t) →
  keeps (λ x, last_doc l x ≠ None) c c'.
Proof.
  induction l as [|a rest IH]; intros c r c' t Hs; simpl in Hs.
  - inversion Hs; subst. apply keeps_refl.
  - assert (∀ c1, keeps (λ x, last_doc rest x ≠ None) c1 c' →
                  keeps (λ x, ∃ doc, written a = Some (x, doc)) c c1 →
                  keeps (λ x, last_doc (a :: rest) x ≠ None) c c') as Hstep.
    { intros c1 [Hl2 H2] [Hl1 H1]. split; [lia|]. intros i d Hi.
      destruct (H1 i d Hi) as (d1 & Hi1 & Ho1 & Hs1).
      destruct (H2 i d1 Hi1) as (d2 & Hi2 & Ho2 & Hs2).
      exists d2. split; [exact Hi2|]. split; [congruence|]. intros Hn.
      cbn [last_doc] in Hn.
      assert (d1 = d) as ->.
      { apply Hs1. intros [doc Hw]. apply Hn. rewrite Hw.
        destruct (last_doc rest (doc_id d)); [discriminate|].
        rewrite bool_decide_eq_true_2 by reflexivity. discriminate. }
      apply Hs2. intros Hx. apply Hn.
      destruct (last_doc rest (doc_id d)); [discriminate|congruence]. }
    destruct (save_activity a c) as [e|[c1 t1]] eqn:Ha.
    + destruct (getitem a "id") as [e'|id].
      * inversion Hs; subst. apply keeps_refl.
      * destruct (save_loop rest c) as [[r2 c2] t2] eqn:Hr.
        inversion Hs; subst. apply (Hstep c); [eapply IH; eauto | apply keeps_refl].
    + destruct (save_loop rest c1) as [[r2 c2] t2] eqn:Hr.
      inversion Hs; subst. apply (Hstep c1); [eapply IH; eauto|].
      destruct (save_activity_trace _ _ _ _ Ha) as (id & name & doc & r0 & Hid & Hdoc & Hu & _).
      apply update_one_keeps in Hu. destruct Hu as [Hl Hk]. split; [exact Hl|].
      intros i d Hi. destruct (Hk i d Hi) as (d' & Hi' & Ho & Hsame).
      exists d'. split; [exact Hi'|]. split; [exact Ho|]. intros Hn.
      apply Hsame. intros ->. apply Hn. exists doc. apply written_Some. auto.
Qed.

(** After a pass, the store holds, under each id written, a document that
    carries the last document written under it. *)
Lemma save_loop_holds_last l : ∀ c r c' t,
  unique_ids c → save_loop l c = (Returns r, c', t) →
  ∀ v doc, last_doc l v = Some doc →
    ∃ d, d ∈ docs c' ∧ doc_id d = v ∧ doc ⊆ doc_fields d.
Proof.
  induction l as [|a rest IH]; intros c r c' t Hnd Hs v doc Hl; [discriminate|].
  cbn [save_loop] in Hs. cbn [last_doc] in Hl.
  destruct (save_activity a c) as [e|[c1 t1]] eqn:Ha.
  - destruct (getitem a "id") as [e'|id]; [discriminate|].
    destruct (save_loop rest c) as [[r2 c2] t2] eqn:Hr.
    inversion Hs; subst.
    assert (written a = None) as Hw.
    { unfold written, save_activity in *.
      destruct (activity_document a) as [e1|doc1] eqn:Hdoc; [reflexivity|].
      exfalso. destruct (activity_document_id _ _ Hdoc) as (id1 & name1 & Hid1 & Hn1 & Hd1).
      destruct (save_activity_spec a doc1 id1 name1 c Hnd Hdoc Hid1 Hn1)
        as (? & ? & _ & Hsave).
      unfold save_activity in Hsave. rewrite Hdoc in Hsave. congruence. }
    rewrite Hw in Hl. destruct (last_doc rest v) eqn:Hlr; [|discriminate].
    injection Hl as ->. eapply IH; eauto.
  - destruct (save_loop rest c1) as [[r2 c2] t2] eqn:Hr.
    inversion Hs; subst.
    pose proof (save_activity_unique _ _ _ _ Hnd Ha) as Hnd1.
    destruct (last_doc rest v) as [doc'|] eqn:Hlr.
    + inversion Hl; subst. eapply IH; eauto.
    + destruct (written a) as [[v' doc']|] eqn:Hw; [|discriminate].
      destruct (decide (v' = v)) as [->|Hne];
        [rewrite bool_decide_eq_true_2 in Hl by reflexivity
        |rewrite bool_decide_eq_false_2 in Hl by exact Hne; discriminate].
      inversion Hl; subst doc'. apply written_Some in Hw as [Hdoc Hid].
      destruct (save_activity_merges c a doc v Hnd Hdoc Hid)
        as (c1' & t1' & d & Hs' & _ & Hfind & _ & Hf).
      rewrite Ha in Hs'. inversion Hs'; subst c1' t1'.
      apply find_one_Some in Hfind as [Hin Hdv].
      apply list_elem_of_lookup in Hin as [i Hi].
      destruct (save_loop_keeps_written _ _ _ _ _ Hr) as [_ Hkeep].
      destruct (Hkeep i d Hi) as (d' & Hi' & _ & Hsame).
      assert (d' = d) as -> by (apply Hsame; rewrite Hdv, Hlr; auto).
      exists d. split; [apply list_elem_of_lookup; eauto|]. split; [exact Hdv|].
      rewrite Hf. apply map_union_subseteq_l.
Qed.

Lemma last_doc_written l a v doc :
  a ∈ l → written a = Some (v, doc) → last_doc l v ≠ None.
Proof.
  induction l as [|b rest IH]; intros Hin Hw; [inversion Hin|].
  cbn [last_doc]. apply elem_of_cons in Hin as [->|Hin].
  - destruct (last_doc rest v); [discriminate|]. rewrite Hw.
    rewrite bool_decide_eq_true_2 by reflexivity. discriminate.
  - specialize (IH Hin Hw). destruct (last_doc rest v); [discriminate|contradiction].
Qed.

Lemma unique_same_id c d1 d2 :
  unique_ids c → d1 ∈ docs c → d2 ∈ docs c → doc_id d1 = doc_id d2 → d1 = d2.
Proof.
  unfold unique_ids. intros Hnd H1 H2 Heq.
  apply list_elem_of_lookup in H1 as [i Hi]. apply list_elem_of_lookup in H2 as [j Hj].
  assert (i = j) as ->.
  { eapply NoDup_lookup; [exact Hnd| |].
    - rewrite list_lookup_fmap, Hi. reflexivity.
    - rewrite list_lookup_fmap, Hj. simpl. congruence. }
  congruence.
Qed.

End Resync.

(** X23: a second pass of the save step over the same records changes
    nothing: for a list of records that all carry an id, saved into a
    store with distinct ids, saving the list again leaves the collection
    exactly as the first pass left it. *)
Theorem resync_is_idempotent `{PyLibs} (activities : list value) (c : collection) :
  unique_ids c → Forall has_id activities →
  saved (VList activities) (saved (VList activities) c) = saved (VList activities) c.
Proof.
  intros Hnd Hids. unfold saved, Sync.save_activities_to_db. cbn [py_iter].
  destruct (save_loop_total activities c Hids) as (c1 & t & Hs). rewrite Hs. cbn [fst snd].
  pose proof (save_loop_unique _ _ _ _ _ Hnd Hs) as Hnd1.
  pose proof (save_loop_holds_last _ _ _ _ _ Hnd Hs) as Hlast.
  destruct (save_loop_overlay activities c1 Hnd1 Hids) as (t' & Hs').
  { intros a v doc Ha Hw.
    destruct (last_doc activities v) as [doc'|] eqn:Hl;
      [|exfalso; exact (last_doc_written _ _ _ _ Ha Hw Hl)].
    destruct (Hlast v doc' Hl) as (d & Hin & Hid & _).
    rewrite <- Hid. apply list_elem_of_fmap_2, Hin. }
  rewrite Hs'. cbn [fst snd].
  assert (overlay activities <$> docs c1 = docs c1) as ->; [|destruct c1; reflexivity].
  apply fmap_fixed, Forall_forall. intros d Hd.
  destruct (overlay_spec activities d) as (Ho & _ & Hf).
  destruct (overlay activities d) as [o f]. destruct d as [o0 f0].
  cbn [oid doc_fields] in *. subst o. f_equal. rewrite Hf.
  destruct (last_doc activities (doc_id (mk_document o0 f0))) as [doc|] eqn:Hl;
    [|reflexivity].
  destruct (Hlast _ doc Hl) as (d0 & Hin0 & Hid0 & Hsub).
  assert (d0 = mk_document o0 f0) as -> by (eapply unique_same_id; eauto).
  cbn [doc_fields] in Hsub. apply map_subseteq_union, Hsub.
Qed.

(** The run and its renamed version, saved twice over. *)
Lemma resync_is_idempotent_witness :
  saved (H := RefLibs.libs) (VList [Samples.run; Samples.bare; Samples.run_renamed])
    (saved (H := RefLibs.libs) (VList [Samples.run; Samples.bare; Samples.run_renamed])
       Samples.created_store)
  = saved (H := RefLibs.libs) (VList [Samples.run; Samples.bare; Samples.run_renamed])
      Samples.created_store.
Proof.
  apply (resync_is_idempotent (H := RefLibs.libs)).
  - unfold unique_ids. vm_compute. apply NoDup_singleton.
  - repeat constructor; eexists; reflexivity.
Defined.

(** X24: a cycle against an upstream that works: when the token endpoint
    answers 200 with a token and, under that token, the pages 1..n hold
    records with ids and page n+1 is empty or fails, the cycle returns,
    the in-memory token is the new one, the collection is the save step
    folded over the n pages in order, and its last log line is the
    completion line. *)
Theorem cycle_completes `{PyLibs} (cfg : config) (srv : server) (w : Sync.world)
    (pages : list (list value)) (fuel : nat) (token_data new_token : value) :
  let request :=
    PostToken (STRAVA_CLIENT_ID cfg) (STRAVA_CLIENT_SECRET cfg)
              (STRAVA_REFRESH_TOKEN cfg) "refresh_token" in
  status_code (srv request) = 200 →
  json (srv request) = inr token_data →
  getitem token_data "access_token" = inr new_token →
  (∀ i recs, pages !! i = Some recs →
     page_holds cfg srv new_token (1 + Z.of_nat i) recs) →
  page_ends cfg srv new_token (1 + Z.of_nat (length pages)) →
  (length pages < fuel)%nat →
  ∃ w',
    Sync.sync_activities cfg srv fuel w = Some (Returns tt, w') ∧
    Sync.STRAVA_ACCESS_TOKEN w' = new_token ∧
    Sync.db w' = fold_left (λ c recs, saved (VList recs) c) pages (Sync.db w) ∧
    last (Sync.out w') = Some (Log INFO MsgSyncComplete).
Proof.
  intros request Hok Hjson Htok Hpages Hend Hfuel.
  unfold Sync.sync_activities. cbn [Sync.emit Sync.STRAVA_ACCESS_TOKEN Sync.db Sync.out].
  assert (Sync.refresh_access_token cfg srv (Sync.STRAVA_ACCESS_TOKEN w)
          = (Returns tt, new_token,
             [Log INFO MsgRefreshing; Request request; Log INFO MsgRefreshed])) as ->.
  { unfold Sync.refresh_access_token. fold request. rewrite Hok. simpl Z.eqb. cbn iota.
    rewrite Hjson. cbn [mbind exn_bind]. rewrite Htok. reflexivity. }
  set (w1 := Sync.mk_world _ _ _).
  destruct (fetch_pages_run cfg srv pages 1 w1 fuel Hpages Hend Hfuel)
    as (w' & Hrun & _ & Hdb & Htok').
  rewrite Hrun. eexists. split; [reflexivity|].
  cbn [Sync.emit Sync.STRAVA_ACCESS_TOKEN Sync.db Sync.out].
  split; [exact Htok'|]. split; [exact Hdb|]. apply last_snoc.
Qed.

Lemma cycle_completes_witness :
  ∃ w',
    Sync.sync_activities (H := RefLibs.libs) Samples.cfg Samples.upstream 2
      Samples.world0 = Some (Returns tt, w') ∧
    Sync.STRAVA_ACCESS_TOKEN w' = VStr "t1" ∧
    Sync.db w' = saved (H := RefLibs.libs) (VList [Samples.run; Samples.bare])
                   Samples.empty_store.
Proof.
  destruct (cycle_completes (H := RefLibs.libs) Samples.cfg Samples.upstream
              Samples.world0 [[Samples.run; Samples.bare]] 2
              (VObj [("access_token", VStr "t1")]) (VStr "t1"))
    as (w' & Hs & Htok & Hdb & _).
  - reflexivity.
  - reflexivity.
  - reflexivity.
  - intros [|[|i]] recs Hi; simpl in Hi; try discriminate.
    injection Hi as <-. repeat split; try discriminate.
    repeat constructor; eexists; reflexivity.
  - left. simpl. discriminate.
  - simpl. lia.
  - exists w'. split; [exact Hs|]. split; [exact Htok | exact Hdb].
Defined.
